(** * AstroMind chat relay (app.py): model and verified properties

    The development embeds [app.py] shallowly: the values that
    [request.get_json] hands to the handler are a small inductive type of
    Python values, module start-up and the [/chat] handler are computations in
    a state, exception and event-log monad, and the Gemini SDK is an oracle
    supplied by the caller.  A Python [str] is modelled by a string of 8-bit
    characters, read as the code points below 256; [str.strip] and
    [str.lower] act on them as Python's do on that range. *)

From Stdlib Require Import ZArith QArith_base Ascii String List Bool Lia.
From stdpp Require Import base option list strings gmap.

Close Scope Q_scope.
Set Warnings "-register-all".
Open Scope string_scope.

(** ** Python built-ins used by the handler *)

Module Py.

(** The values produced by [json.loads]: [None], [bool], numbers, [str],
    [list] and [dict].  A dict keeps its pairs in source order; see
    [dict_get] for how a repeated key is read. *)
Inductive value : Type :=
| VNone
| VBool (b : bool)
| VNum (x : Q)
| VStr (s : string)
| VList (items : list value)
| VDict (fields : list (string * value)).

(** Exceptions the modelled code can raise.  [KeyError] also stands for the
    failure of slicing a dict, which older interpreters report as a
    [TypeError]; nothing below tells the two apart. *)
Inductive exn : Type :=
| AttributeError
| TypeError
| KeyError
| RuntimeError (msg : string).

(** [bool(v)], as used by [or], [not] and [if]. *)
Definition truthy (v : value) : bool :=
  match v with
  | VNone => false
  | VBool b => b
  | VNum x => negb (Qnum x =? 0)%Z
  | VStr s => negb (String.eqb s "")
  | VList items => match items with [] => false | _ => true end
  | VDict fields => match fields with [] => false | _ => true end
  end.

(** [a or b] *)
Definition or_else (a b : value) : value := if truthy a then a else b.

(** [str.isspace] on one character: TAB, LF, VT, FF, CR, the four
    separators 0x1c..0x1f, the space, NEL (0x85) and the no-break space
    (0xa0). *)
Definition isspace (c : ascii) : bool :=
  let n := nat_of_ascii c in
  ((9 <=? n) && (n <=? 13) || (28 <=? n) && (n <=? 32)
   || (n =? 133) || (n =? 160))%nat.

Fixpoint lstrip (s : string) : string :=
  match s with
  | EmptyString => EmptyString
  | String c s' => if isspace c then lstrip s' else s
  end.

Fixpoint rstrip (s : string) : string :=
  match s with
  | EmptyString => EmptyString
  | String c s' =>
      match rstrip s' with
      | EmptyString => if isspace c then EmptyString else String c EmptyString
      | r => String c r
      end
  end.

(** [s.strip()] *)
Definition strip (s : string) : string := rstrip (lstrip s).

(** [c.lower()]: the letters A..Z and the capitals 0xc0..0xde (all but the
    multiplication sign 0xd7) move up by 32; nothing else changes. *)
Definition lower_char (c : ascii) : ascii :=
  let n := nat_of_ascii c in
  if ((65 <=? n) && (n <=? 90)
      || (192 <=? n) && (n <=? 222) && negb (n =? 215))%nat
  then ascii_of_nat (n + 32) else c.

(** [s.lower()] *)
Fixpoint lower (s : string) : string :=
  match s with
  | EmptyString => EmptyString
  | String c s' => String (lower_char c) (lower s')
  end.

(** The value bound to [k] in a parsed JSON object.  [json.loads] builds the
    dict by successive insertion, so the last pair with key [k] wins. *)
Fixpoint dict_get (k : string) (fields : list (string * value)) : option value :=
  match fields with
  | [] => None
  | (k', v) :: rest =>
      match dict_get k rest with
      | Some w => Some w
      | None => if String.eqb k k' then Some v else None
      end
  end.

(** The characters of a string as one-character strings, which is what
    iterating over a Python [str] yields. *)
Fixpoint chars (s : string) : list value :=
  match s with
  | EmptyString => []
  | String c s' => VStr (String c EmptyString) :: chars s'
  end.

(** [l[-n:]] on a list, for [n > 0]. *)
Definition last_n {A : Type} (n : nat) (l : list A) : list A :=
  drop (length l - n) l.

End Py.
Import Py.

(** ** Configuration data (app.py, section 2) *)

(** A [generation_config] dict; its keys are fixed, its float literals are
    kept as exact rationals.  The prompts are only passed on, never
    inspected; the en dash in the support prompt is kept as the three bytes
    of its UTF-8 form. *)
Record GenerationConfig : Type := mkGenerationConfig {
  temperature : Q;
  top_p : Q;
  top_k : Z;
  max_output_tokens : Z
}.

Record Profile : Type := mkProfile {
  system : string;
  generation_config : GenerationConfig
}.

Definition default_profile : Profile :=
  {| system :=
       "You are 'AstroMind', an expert AI specializing in aerospace engineering, deep space exploration, " +:+
       "astrophysics, astronomy, and rocket science. Provide clear, accurate, and technically rich answers. " +:+
       "If asked about general topics, connect them to space or physics when possible. " +:+
       "Be concise, factual, and cite NASA/ESA/ISRO references when relevant.";
     generation_config :=
       {| temperature := Qmake 55 100; top_p := Qmake 9 10; top_k := 40; max_output_tokens := 512 |} |}.

Definition teacher_profile : Profile :=
  {| system :=
       "You are 'AstroMentor', a friendly aerospace instructor. Explain step-by-step, " +:+
       "use analogies from space missions (like Chandrayaan, Mars Rover, or Apollo), " +:+
       "and make complex physics easy to understand for students.";
     generation_config :=
       {| temperature := Qmake 7 10; top_p := Qmake 95 100; top_k := 40; max_output_tokens := 700 |} |}.

Definition support_profile : Profile :=
  {| system :=
       "You are 'MissionControl', a technical support AI for aerospace systems. " +:+
       "Help users troubleshoot rocket propulsion issues, satellite systems, and simulation software. " +:+
       "Ask 1–2 clarifying questions first, then list solutions in bullet points.";
     generation_config :=
       {| temperature := Qmake 5 10; top_p := Qmake 85 100; top_k := 40; max_output_tokens := 600 |} |}.

(** The [PROFILES] dict, as written in the source. *)
Definition PROFILES_literal : gmap string Profile :=
  <["support" := support_profile]>
    (<["teacher" := teacher_profile]>
       (<["default" := default_profile]> ∅)).

Definition MODEL_NAME_literal : string := "gemini-2.5-flash-lite".

(** ** The computation monad: server state, exceptions, event log *)

(** One entry of the list handed to [generate_content]:
    [{"role": role, "parts": [part]}]. *)
Record content : Type := Content {
  role : string;
  parts : list value
}.

(** The arguments of one round trip to the SDK: the [GenerativeModel]
    constructor's and those of [generate_content]. *)
Record call : Type := Call {
  call_model : string;
  call_system_instruction : string;
  call_generation_config : GenerationConfig;
  call_contents : list content
}.

(** What the SDK does with a call: [resp.text], or an exception [e] raised
    anywhere inside the [try] block, carried as [str(e)]. *)
Inductive upstream : Type :=
| Generated (text : string)
| Failed (description : string).

(** The lines the module prints: the four of lines 13-16 when the key is
    missing, and the three of the runner at lines 105-107, the second of
    which shows [MODEL_NAME]. *)
Inductive notice : Type :=
| KeyNotFound
| PleaseSetIt
| OnWindows
| OnUnix
| Launching
| ModelIs (name : string)
| ModeOptions.

(** Effects visible outside the process; [AppRun] is the call of
    [app.run], which serves requests until the process is stopped. *)
Inductive event : Type :=
| Printed (n : notice)
| SdkConfigured (api_key : string)
| SdkCalled (c : call)
| AppRun (host : string) (port : Z) (debug : bool).

(** Module-level state: the globals of app.py and the routes registered on
    the Flask application.  [blank_server] is the state before the module
    body runs, when nothing is assigned yet. *)
Record server : Type := Server {
  MODEL_NAME : string;
  PROFILES : gmap string Profile;
  routes : list (string * string)
}.

Definition blank_server : server :=
  {| MODEL_NAME := ""; PROFILES := ∅; routes := [] |}.

Inductive result (A : Type) : Type :=
| Ok (a : A)
| Raise (e : exn).
Arguments Ok {A} a.
Arguments Raise {A} e.

Record run (A : Type) : Type := Run {
  outcome : result A;
  final : server;
  log : list event
}.
Arguments Run {A} outcome final log.
Arguments outcome {A} r.
Arguments final {A} r.
Arguments log {A} r.

Definition M (A : Type) : Type := server -> run A.

Definition ret {A : Type} (a : A) : M A := fun g => Run (Ok a) g [].

Definition raise {A : Type} (e : exn) : M A := fun g => Run (Raise e) g [].

Definition bind {A B : Type} (m : M A) (k : A -> M B) : M B :=
  fun g =>
    let r := m g in
    match outcome r with
    | Ok a => let r' := k a (final r) in Run (outcome r') (final r') (log r ++ log r')
    | Raise e => Run (Raise e) (final r) (log r)
    end.

Notation "x <~ m ;; k" := (bind m (fun x => k))
  (at level 100, m at next level, right associativity).
Notation "m ;;; k" := (bind m (fun _ => k))
  (at level 100, right associativity).

Definition read {A : Type} (f : server -> A) : M A := fun g => Run (Ok (f g)) g [].

Definition update (f : server -> server) : M unit := fun g => Run (Ok tt) (f g) [].

Definition emit (e : event) : M unit := fun g => Run (Ok tt) g [e].

Definition lift {A : Type} (r : result A) : M A := fun g => Run r g [].

(** Monadic [for x in l], collecting the values appended by the body. *)
Fixpoint for_each {A B : Type} (f : A -> M B) (l : list A) : M (list B) :=
  match l with
  | [] => ret []
  | x :: l' => y <~ f x ;; ys <~ for_each f l' ;; ret (y :: ys)
  end.

(** ** Module start-up (app.py, sections 1 to 3) *)

Definition missing_key {A : Type} : M A :=
  emit (Printed KeyNotFound) ;;;
  emit (Printed PleaseSetIt) ;;;
  emit (Printed OnWindows) ;;;
  emit (Printed OnUnix) ;;;
  raise (RuntimeError "Missing Gemini API key. Please set GEMINI_API_KEY environment variable.").

(** [@app.get(path)] / [@app.post(path)] *)
Definition add_route (method path : string) : M unit :=
  update (fun g => {| MODEL_NAME := MODEL_NAME g; PROFILES := PROFILES g;
                      routes := (routes g ++ [(method, path)])%list |}).

(** Lines 10 to 99 of the module, run once when it is loaded; [environ] is
    the process environment read by [os.getenv].  The Flask application is
    its list of routes, each with the method it is declared for: the
    constructor of line 57, given a static folder, registers the rule that
    serves it, then the two decorators add theirs.  [CORS(app)] adds no
    route. *)
Definition module_init (environ : gmap string string) : M unit :=
  let GEMINI_API_KEY := environ !! "GEMINI_API_KEY" in
  key <~ match GEMINI_API_KEY with
         | Some k => if truthy (VStr k) then ret k else missing_key
         | None => missing_key
         end ;;
  update (fun g => {| MODEL_NAME := MODEL_NAME_literal; PROFILES := PROFILES g;
                      routes := routes g |}) ;;;
  emit (SdkConfigured key) ;;;
  update (fun g => {| MODEL_NAME := MODEL_NAME g; PROFILES := PROFILES_literal;
                      routes := routes g |}) ;;;
  add_route "GET" "/static/<path:filename>" ;;;
  add_route "GET" "/" ;;;
  add_route "POST" "/chat".

(** The runner of lines 105-108. *)
Definition main_block : M unit :=
  emit (Printed Launching) ;;;
  name <~ read MODEL_NAME ;;
  emit (Printed (ModelIs name)) ;;;
  emit (Printed ModeOptions) ;;;
  emit (AppRun "0.0.0.0" 8000 true).

(** The whole module; [name] is the value of [__name__], which is
    ["__main__"] when the file is run as a script and the module's name
    when a server imports it. *)
Definition module_body (name : string) (environ : gmap string string) : M unit :=
  module_init environ ;;;
  if String.eqb name "__main__" then main_block else ret tt.

(** ** The chat endpoint (app.py, section 4) *)

Record response : Type := Response {
  status : Z;
  payload : value
}.

(** [jsonify(d)] for a dict literal [d]. *)
Definition jsonify (fields : list (string * value)) : value := VDict fields.

(** [d.get(k, dflt)]; the receiver has the method only when it is a dict. *)
Definition get (d : value) (k : string) (dflt : value) : M value :=
  lift match d with
       | VDict fields => Ok (default dflt (dict_get k fields))
       | _ => Raise AttributeError
       end.

(** [v.strip()] *)
Definition str_strip (v : value) : M string :=
  lift match v with
       | VStr s => Ok (strip s)
       | _ => Raise AttributeError
       end.

(** [v.lower()] *)
Definition str_lower (v : value) : M string :=
  lift match v with
       | VStr s => Ok (lower s)
       | _ => Raise AttributeError
       end.

(** [v[-8:]], then the items the [for] loop draws from it. *)
Definition last8 (v : value) : M (list value) :=
  lift match v with
       | VList items => Ok (last_n 8 items)
       | VStr s => Ok (last_n 8 (chars s))
       | VDict _ => Raise KeyError
       | VNone | VBool _ | VNum _ => Raise TypeError
       end.

(** [v == s] for a string literal [s]. *)
Definition eq_str (v : value) (s : string) : bool :=
  match v with
  | VStr t => String.eqb t s
  | _ => false
  end.

(** [PROFILES[k]] *)
Definition profiles_item (k : string) : M Profile :=
  table <~ read PROFILES ;;
  lift match table !! k with
       | Some p => Ok p
       | None => Raise KeyError
       end.

(** Line 72: [(data.get("mode") or "default").lower()] *)
Definition requested_mode (data : value) : M string :=
  m <~ get data "mode" VNone ;;
  str_lower (or_else m (VStr "default")).

(** Line 78: [PROFILES.get(mode, PROFILES["default"])] *)
Definition select_profile (mode : string) : M Profile :=
  fallback <~ profiles_item "default" ;;
  table <~ read PROFILES ;;
  ret (default fallback (table !! mode)).

(** The entry appended for a turn that is a dict (lines 85-86). *)
Definition content_of_turn (turn : list (string * value)) : content :=
  let role := if eq_str (default VNone (dict_get "role" turn)) "user"
              then "user" else "model" in
  Content role [default (VStr "") (dict_get "text" turn)].

(** The loop body, lines 85-86, on whatever the history holds. *)
Definition turn_content (turn : value) : M content :=
  r <~ get turn "role" VNone ;;
  let role := if eq_str r "user" then "user" else "model" in
  text <~ get turn "text" (VStr "") ;;
  ret (Content role [text]).

(** [GenerativeModel(...).generate_content(contents)] and [resp.text]. *)
Definition generate_content (client : call -> upstream) (c : call) : M upstream :=
  emit (SdkCalled c) ;;;
  ret (client c).

Definition no_response_text : string := "(No response text)".

(** The view function [chat]; [body] is what
    [request.get_json(force=True)] returned and [client] what the SDK will
    do during this request.  An exception that leaves the function is the
    [Raise] outcome of the run. *)
Definition chat (client : call -> upstream) (body : value) : M response :=
  let data := or_else body (VDict []) in                          (* line 69 *)
  m <~ get data "message" VNone ;;                                (* line 70 *)
  user_message <~ str_strip (or_else m (VStr "")) ;;
  history <~ get data "history" (VList []) ;;                     (* line 71 *)
  mode <~ requested_mode data ;;                                  (* line 72 *)
  if negb (truthy (VStr user_message)) then                       (* line 74 *)
    ret (Response 400 (jsonify [("error", VStr "Empty message")]))
  else
    profile <~ select_profile mode ;;                             (* line 78 *)
    let system_instruction := system profile in
    let generation_config := generation_config profile in
    recent <~ last8 history ;;                                    (* line 84 *)
    turns <~ for_each turn_content recent ;;
    let contents := (turns ++ [Content "user" [VStr user_message]])%list in
    model_name <~ read MODEL_NAME ;;                              (* lines 89-99 *)
    resp <~ generate_content client
              (Call model_name system_instruction generation_config contents) ;;
    match resp with
    | Generated text =>
        let text := or_else (VStr text) (VStr no_response_text) in
        ret (Response 200 (jsonify [("reply", text); ("mode", VStr mode)]))
    | Failed description =>
        ret (Response 500 (jsonify [("error", VStr description)]))
    end.

(** What the HTTP client sees of a run: the handler's status, or Flask's
    500 page when the handler let an exception escape. *)
Definition http_status (r : result response) : Z :=
  match r with
  | Ok resp => status resp
  | Raise _ => 500
  end.

(** A process serving requests one after the other, each with the answers
    the SDK happens to give during it; an escaped exception ends that
    request only. *)
Fixpoint serve (requests : list ((call -> upstream) * value)) (g : server)
  : list (run response) :=
  match requests with
  | [] => []
  | (client, body) :: rest =>
      let r := chat client body g in
      r :: serve rest (final r)
  end.

(** The state in which requests are served: the one a successful start-up
    leaves behind. *)
Definition started : server :=
  {| MODEL_NAME := MODEL_NAME_literal; PROFILES := PROFILES_literal;
     routes := [("GET", "/static/<path:filename>"); ("GET", "/"); ("POST", "/chat")] |}.

(** ** Vocabulary of the statements *)

(** Every character of the string is white space. *)
Fixpoint all_space (s : string) : bool :=
  match s with
  | EmptyString => true
  | String c s' => isspace c && all_space s'
  end.

(** The response built from what the SDK did (lines 96-99). *)
Definition relayed (mode : string) (resp : upstream) : response :=
  match resp with
  | Generated text =>
      Response 200 (jsonify [("reply", or_else (VStr text) (VStr no_response_text));
                             ("mode", VStr mode)])
  | Failed description => Response 500 (jsonify [("error", VStr description)])
  end.

(** The [400] response of line 75. *)
Definition empty_message : response :=
  Response 400 (jsonify [("error", VStr "Empty message")]).

(** The request's [message] is absent, null, empty or white space only. *)
Definition blank_message (fields : list (string * value)) : bool :=
  match dict_get "message" fields with
  | None | Some VNone => true
  | Some (VStr s) => all_space s
  | Some _ => false
  end.

(** The request's [mode] is absent, a string, or a falsy value such as
    null: the cases in which line 72 finds a string to lower-case. *)
Definition usable_mode (fields : list (string * value)) : bool :=
  match dict_get "mode" fields with
  | None | Some (VStr _) => true
  | Some v => negb (truthy v)
  end.

(** Lines 72 and 78 in sequence: the profile a request selects. *)
Definition resolved_profile (data : value) : M Profile :=
  mode <~ requested_mode data ;;
  select_profile mode.

(** An SDK that answers every call the same way. *)
Definition canned (resp : upstream) : call -> upstream := fun _ => resp.

(** Nine turns of the model, numbered in their text. *)
Definition nine_turns : list (list (string * value)) :=
  (fun t => [("role", VStr "model"); ("text", VStr t)])
    <$> ["1"; "2"; "3"; "4"; "5"; "6"; "7"; "8"; "9"].

(** The request's [message] makes line 74 answer 400: it is absent, a string
    of white space only (the empty one included), or any other falsy value. *)
Definition message_empty (fields : list (string * value)) : bool :=
  match dict_get "message" fields with
  | None => true
  | Some (VStr s) => all_space s
  | Some v => negb (truthy v)
  end.

(** The request's [message] is a string with something left after trimming. *)
Definition message_present (fields : list (string * value)) : bool :=
  match dict_get "message" fields with
  | Some (VStr s) => negb (all_space s)
  | _ => false
  end.

Definition is_dict (v : value) : bool :=
  match v with
  | VDict _ => true
  | _ => false
  end.

(** The loop of lines 84-86 runs through: the history is absent, a list
    whose last eight items are dicts, or the empty string. *)
Definition window_ok (fields : list (string * value)) : bool :=
  match dict_get "history" fields with
  | None => true
  | Some (VList items) => forallb is_dict (last_n 8 items)
  | Some (VStr s) => String.eqb s ""
  | Some _ => false
  end.

(** Two requests carry the same [message], [history] and [mode]. *)
Definition same_request (fields fields' : list (string * value)) : Prop :=
  dict_get "message" fields = dict_get "message" fields' /\
  dict_get "history" fields = dict_get "history" fields' /\
  dict_get "mode" fields = dict_get "mode" fields'.

(** The exceptions of Python built-ins that the handler lets escape. *)
Definition builtin_error (e : exn) : bool :=
  match e with
  | AttributeError | TypeError | KeyError => true
  | RuntimeError _ => false
  end.

(** * Properties *)

(** ** Strings and truthiness *)

Section Builtins.

Lemma lower_char_idempotent (c : ascii) : lower_char (lower_char c) = lower_char c.
Proof. destruct c as [[] [] [] [] [] [] [] []]; reflexivity. Qed.

Lemma lower_idempotent (s : string) : lower (lower s) = lower s.
Proof.
  induction s as [|c s IH]; simpl; [reflexivity|].
  now rewrite lower_char_idempotent, IH.
Qed.

Lemma lstrip_all_space (s : string) : all_space s = true -> lstrip s = "".
Proof.
  induction s as [|c s IH]; simpl; [reflexivity|].
  intros [Hc Hs]%andb_true_iff. rewrite Hc. auto.
Qed.

Lemma lstrip_head (s : string) :
  lstrip s = "" \/ exists c r, lstrip s = String c r /\ isspace c = false.
Proof.
  induction s as [|c s IH]; simpl; [now left|].
  destruct (isspace c) eqn:Hc; [exact IH|].
  right. now exists c, s.
Qed.

Lemma lstrip_empty_all_space (s : string) : lstrip s = "" -> all_space s = true.
Proof.
  induction s as [|c s IH]; simpl; [reflexivity|].
  destruct (isspace c); [exact IH | discriminate].
Qed.

Lemma rstrip_nonspace_head (c : ascii) (r : string) :
  isspace c = false -> rstrip (String c r) <> "".
Proof.
  intros Hc. simpl. destruct (rstrip r); [rewrite Hc|]; discriminate.
Qed.

(** A message is empty after trimming exactly when it is white space only. *)
Lemma strip_empty_iff (s : string) : strip s = "" <-> all_space s = true.
Proof.
  unfold strip. split.
  - intros H. destruct (lstrip_head s) as [E | (c & r & E & Hc)].
    + now apply lstrip_empty_all_space.
    + rewrite E in H. now apply rstrip_nonspace_head in H.
  - intros H. now rewrite lstrip_all_space.
Qed.

Lemma or_else_dict (fields : list (string * value)) :
  or_else (VDict fields) (VDict []) = VDict fields.
Proof. now destruct fields. Qed.

End Builtins.

(** ** Running computations *)

Lemma run_eta {A : Type} (r : run A) : Run (outcome r) (final r) (log r) = r.
Proof. now destruct r. Qed.

Section Running.

Context {A B : Type}.

Lemma bind_lift (r : result A) (k : A -> M B) (g : server) :
  bind (lift r) k g = match r with Ok a => k a g | Raise e => Run (Raise e) g [] end.
Proof.
  unfold bind, lift. destruct r as [a|e]; simpl; [apply run_eta | reflexivity].
Qed.

Lemma bind_read (f : server -> A) (k : A -> M B) (g : server) :
  bind (read f) k g = k (f g) g.
Proof. unfold bind, read. simpl. apply run_eta. Qed.

End Running.

Lemma bind_emit {B : Type} (e : event) (k : unit -> M B) (g : server) :
  bind (emit e) k g =
  Run (outcome (k tt g)) (final (k tt g)) (e :: log (k tt g)).
Proof. reflexivity. Qed.

(** ** The handler, step by step *)

Section Handler.

Variable client : call -> upstream.

Lemma turn_content_dict (turn : list (string * value)) (g : server) :
  turn_content (VDict turn) g = Run (Ok (content_of_turn turn)) g [].
Proof. reflexivity. Qed.

Lemma for_each_turns (turns : list (list (string * value))) (g : server) :
  for_each turn_content (VDict <$> turns) g = Run (Ok (content_of_turn <$> turns)) g [].
Proof.
  induction turns as [|t turns IH]; [reflexivity|].
  cbn [fmap list_fmap for_each]. unfold bind at 1. rewrite turn_content_dict.
  cbn [outcome final log]. unfold bind. rewrite IH. reflexivity.
Qed.

Lemma for_each_cases (items : list value) (g : server) :
  (exists turns, items = VDict <$> turns) \/
  for_each turn_content items g = Run (Raise AttributeError) g [].
Proof.
  induction items as [|v items IH]; [left; now exists []|].
  destruct v as [| | | | |t];
    try (right; reflexivity).
  destruct IH as [[turns ->] | IH].
  - left. now exists (t :: turns).
  - right. cbn [for_each]. unfold bind at 1. rewrite turn_content_dict.
    cbn [outcome final log]. unfold bind. rewrite IH. reflexivity.
Qed.

Lemma bind_quiet {A B : Type} (m : M A) (k : A -> M B) (g : server) (r : result A) :
  m g = Run r g [] ->
  bind m k g = match r with Ok a => k a g | Raise e => Run (Raise e) g [] end.
Proof.
  intros H. unfold bind. rewrite H. cbn [outcome final log].
  destruct r; [apply run_eta | reflexivity].
Qed.

Lemma profiles_item_run (k : string) (g : server) :
  profiles_item k g =
  Run match PROFILES g !! k with Some p => Ok p | None => Raise KeyError end g [].
Proof.
  unfold profiles_item. rewrite bind_read. reflexivity.
Qed.

Lemma select_profile_run (mode : string) (g : server) :
  select_profile mode g =
  Run match PROFILES g !! "default" with
      | Some d => Ok (default d (PROFILES g !! mode))
      | None => Raise KeyError
      end g [].
Proof.
  unfold select_profile.
  rewrite (bind_quiet _ _ _ _ (profiles_item_run "default" g)).
  destruct (PROFILES g !! "default"); [|reflexivity].
  rewrite bind_read. reflexivity.
Qed.

Lemma requested_mode_run (fields : list (string * value)) (g : server) :
  requested_mode (VDict fields) g =
  Run match or_else (default VNone (dict_get "mode" fields)) (VStr "default") with
      | VStr s => Ok (lower s)
      | _ => Raise AttributeError
      end g [].
Proof.
  unfold requested_mode, get, str_lower. rewrite bind_lift. reflexivity.
Qed.

Lemma bind_generate {B : Type} (c : call) (k : upstream -> M B) (g : server) :
  bind (generate_content client c) k g =
  Run (outcome (k (client c) g)) (final (k (client c) g))
      (SdkCalled c :: log (k (client c) g)).
Proof. reflexivity. Qed.

Lemma for_each_quiet (items : list value) (g : server) :
  for_each turn_content items g = Run (outcome (for_each turn_content items g)) g [].
Proof.
  destruct (for_each_cases items g) as [[turns ->] | H].
  - now rewrite for_each_turns.
  - now rewrite H.
Qed.

(** The handler as one case analysis on the request. *)
Lemma chat_cases (fields : list (string * value)) (g : server) :
  chat client (VDict fields) g =
  match or_else (default VNone (dict_get "message" fields)) (VStr "") with
  | VStr raw =>
      match outcome (requested_mode (VDict fields) g) with
      | Ok mode =>
          if String.eqb (strip raw) "" then Run (Ok empty_message) g []
          else
            match outcome (select_profile mode g) with
            | Ok p =>
                match outcome (last8 (default (VList []) (dict_get "history" fields)) g) with
                | Ok recent =>
                    match outcome (for_each turn_content recent g) with
                    | Ok turns =>
                        let c := Call (MODEL_NAME g) (system p) (generation_config p)
                                   (turns ++ [Content "user" [VStr (strip raw)]])%list in
                        Run (Ok (relayed mode (client c))) g [SdkCalled c]
                    | Raise e => Run (Raise e) g []
                    end
                | Raise e => Run (Raise e) g []
                end
            | Raise e => Run (Raise e) g []
            end
      | Raise e => Run (Raise e) g []
      end
  | _ => Run (Raise AttributeError) g []
  end.
Proof.
  unfold chat. rewrite or_else_dict.
  unfold get at 1. rewrite bind_lift.
  unfold str_strip. rewrite bind_lift.
  destruct (or_else (default VNone (dict_get "message" fields)) (VStr ""))
    as [| | |raw| |]; try reflexivity.
  unfold get at 1. rewrite bind_lift.
  rewrite (bind_quiet _ _ _ _ (requested_mode_run fields g)).
  rewrite requested_mode_run. cbn [outcome].
  destruct (or_else (default VNone (dict_get "mode" fields)) (VStr "default"))
    as [| | |s| |]; try reflexivity.
  cbn [truthy negb]. destruct (String.eqb (strip raw) ""); [reflexivity|].
  cbn [negb].
  rewrite (bind_quiet _ _ _ _ (select_profile_run (lower s) g)).
  rewrite select_profile_run. cbn [outcome].
  destruct (PROFILES g !! "default") as [d|]; [|reflexivity].
  unfold last8 at 1. rewrite bind_lift. unfold last8, lift. cbn [outcome].
  destruct (default (VList []) (dict_get "history" fields)) as [| | |h|items|]; try reflexivity.
  - rewrite (bind_quiet _ _ _ _ (for_each_quiet _ g)).
    destruct (outcome (for_each turn_content (last_n 8 (chars h)) g)); [|reflexivity].
    rewrite bind_read, bind_generate. destruct (client _); reflexivity.
  - rewrite (bind_quiet _ _ _ _ (for_each_quiet _ g)).
    destruct (outcome (for_each turn_content (last_n 8 items) g)); [|reflexivity].
    rewrite bind_read, bind_generate. destruct (client _); reflexivity.
Qed.

Lemma chat_not_dict (body : value) (g : server) :
  (forall fields, or_else body (VDict []) <> VDict fields) ->
  chat client body g = Run (Raise AttributeError) g [].
Proof.
  intros H. unfold chat. unfold get at 1. rewrite bind_lift.
  destruct (or_else body (VDict [])) as [| | | | |fields]; try reflexivity.
  now destruct (H fields).
Qed.

Lemma chat_data (body : value) (fields : list (string * value)) (g : server) :
  or_else body (VDict []) = VDict fields ->
  chat client body g = chat client (VDict fields) g.
Proof.
  intros H. unfold chat. now rewrite H, or_else_dict.
Qed.

(** A request that passes every check is relayed in one call. *)
Lemma chat_relays (fields : list (string * value)) (g : server)
    (raw mode : string) (p : Profile) (turns : list (list (string * value))) :
  or_else (default VNone (dict_get "message" fields)) (VStr "") = VStr raw ->
  strip raw <> "" ->
  outcome (requested_mode (VDict fields) g) = Ok mode ->
  outcome (select_profile mode g) = Ok p ->
  outcome (last8 (default (VList []) (dict_get "history" fields)) g) = Ok (VDict <$> turns) ->
  let c := Call (MODEL_NAME g) (system p) (generation_config p)
             ((content_of_turn <$> turns) ++ [Content "user" [VStr (strip raw)]])%list in
  chat client (VDict fields) g = Run (Ok (relayed mode (client c))) g [SdkCalled c].
Proof.
  intros Hmsg Hraw Hmode Hp Hhist c.
  rewrite chat_cases, Hmsg, Hmode.
  apply String.eqb_neq in Hraw. rewrite Hraw, Hp, Hhist.
  rewrite for_each_turns. reflexivity.
Qed.

(** Conversely, when the SDK is called at all, the request passed every
    check and the run is the one of [chat_relays]. *)
Lemma chat_called (body : value) (g : server) (c : call) :
  SdkCalled c ∈ log (chat client body g) ->
  exists fields raw mode p turns,
    or_else body (VDict []) = VDict fields /\
    or_else (default VNone (dict_get "message" fields)) (VStr "") = VStr raw /\
    strip raw <> "" /\
    outcome (requested_mode (VDict fields) g) = Ok mode /\
    outcome (select_profile mode g) = Ok p /\
    outcome (last8 (default (VList []) (dict_get "history" fields)) g) = Ok (VDict <$> turns) /\
    c = Call (MODEL_NAME g) (system p) (generation_config p)
          ((content_of_turn <$> turns) ++ [Content "user" [VStr (strip raw)]])%list /\
    chat client body g = Run (Ok (relayed mode (client c))) g [SdkCalled c].
Proof.
  intros Hin.
  destruct (or_else body (VDict [])) as [| | | | |fields] eqn:Hbody;
    try (rewrite chat_not_dict in Hin by (intros f; rewrite Hbody; discriminate);
         cbn in Hin; now apply elem_of_nil in Hin).
  rewrite (chat_data _ _ _ Hbody) in Hin |- *.
  rewrite chat_cases in Hin |- *.
  exists fields.
  destruct (or_else (default VNone (dict_get "message" fields)) (VStr ""))
    as [| | |raw| |] eqn:Hmsg;
    try (cbn in Hin; now apply elem_of_nil in Hin).
  destruct (outcome (requested_mode (VDict fields) g)) as [mode|e] eqn:Hmode;
    [|cbn in Hin; now apply elem_of_nil in Hin].
  destruct (String.eqb (strip raw) "") eqn:Hraw;
    [cbn in Hin; now apply elem_of_nil in Hin|].
  destruct (outcome (select_profile mode g)) as [p|e] eqn:Hp;
    [|cbn in Hin; now apply elem_of_nil in Hin].
  destruct (outcome (last8 (default (VList []) (dict_get "history" fields)) g))
    as [recent|e] eqn:Hhist; [|cbn in Hin; now apply elem_of_nil in Hin].
  destruct (for_each_cases recent g) as [[turns ->] | Hfail].
  - rewrite for_each_turns in Hin |- *. cbn [outcome log] in Hin |- *.
    apply list_elem_of_singleton in Hin. injection Hin as ->.
    exists raw, mode, p, turns.
    repeat split; try reflexivity; try assumption. now apply String.eqb_neq.
  - rewrite Hfail in Hin. cbn in Hin. now apply elem_of_nil in Hin.
Qed.

End Handler.

Lemma profiles_default : PROFILES started !! "default" = Some default_profile.
Proof. reflexivity. Qed.

Lemma or_else_message (s : string) : or_else (VStr s) (VStr "") = VStr s.
Proof. destruct s; reflexivity. Qed.

Lemma message_text (fields : list (string * value)) (msg : string) :
  dict_get "message" fields = Some (VStr msg) ->
  or_else (default VNone (dict_get "message" fields)) (VStr "") = VStr msg.
Proof. intros ->. apply or_else_message. Qed.

(** Line 72 succeeds exactly on the usable modes. *)
Lemma usable_mode_iff (fields : list (string * value)) (g : server) :
  usable_mode fields = true <->
  exists mode, outcome (requested_mode (VDict fields) g) = Ok mode.
Proof.
  rewrite requested_mode_run. unfold usable_mode, or_else. cbn [outcome].
  destruct (dict_get "mode" fields) as [[|b|x|s|items|fs]|]; cbn;
    try destruct b; try destruct (Qnum x =? 0)%Z; try destruct (s =? "");
    try destruct items; try destruct fs; cbn;
    (split; [intros H; first [discriminate H | eauto]
            | intros [m H]; first [discriminate H | reflexivity]]).
Qed.

(** The mode that line 72 computes is ["default"] or the lower-cased
    non-empty string the request carries. *)
Lemma requested_mode_inv (fields : list (string * value)) (g : server) (mode : string) :
  outcome (requested_mode (VDict fields) g) = Ok mode ->
  mode = "default" \/
  exists s, dict_get "mode" fields = Some (VStr s) /\ s <> "" /\ mode = lower s.
Proof.
  rewrite requested_mode_run. cbn [outcome]. unfold or_else.
  destruct (dict_get "mode" fields) as [v|]; cbn [default from_option id].
  - destruct (truthy v) eqn:Hv.
    + destruct v as [| | |s| |]; cbn; intros H; try discriminate H.
      injection H as <-. right. exists s.
      repeat split. intros ->. discriminate.
    + cbn. intros H. injection H as <-. now left.
  - cbn. intros H. injection H as <-. now left.
Qed.

(** What a call and the response after it owe to the mode of the request. *)
Lemma called_with_profile (client : call -> upstream) (body : value)
    (fields : list (string * value)) (mode : string) (p : Profile) (c : call) :
  or_else body (VDict []) = VDict fields ->
  outcome (requested_mode (VDict fields) started) = Ok mode ->
  select_profile mode started = Run (Ok p) started [] ->
  SdkCalled c ∈ log (chat client body started) ->
  call_system_instruction c = system p /\
  call_generation_config c = generation_config p /\
  forall text, client c = Generated text ->
    exists reply, chat client body started =
      Run (Ok (Response 200 (jsonify [("reply", reply); ("mode", VStr mode)])))
          started [SdkCalled c].
Proof.
  intros Hbody Hmode Hsel Hcall.
  apply chat_called in Hcall
    as (fields' & raw & mode' & p' & turns & Hb & _ & _ & Hm & Hp & _ & Hc & Hrun).
  rewrite Hbody in Hb. injection Hb as <-.
  rewrite Hmode in Hm. injection Hm as <-.
  rewrite Hsel in Hp. injection Hp as <-.
  split; [now rewrite Hc|]. split; [now rewrite Hc|].
  intros text Htext. rewrite Hrun, Htext. eexists. reflexivity.
Qed.

(** ** Validation of the message *)

(** C1 (as amended): when the request body is a JSON object (or a falsy
    value, read as the empty object) whose [mode] is absent, falsy or a
    string, and whose [message] is absent, null, empty or white space only,
    the handler answers 400 with body [{"error": "Empty message"}], leaves
    the server state as it was and makes no call to the SDK. *)
Theorem chat_blank_message (client : call -> upstream) (body : value)
    (fields : list (string * value)) :
  or_else body (VDict []) = VDict fields ->
  usable_mode fields = true ->
  blank_message fields = true ->
  chat client body started =
  Run (Ok (Response 400 (jsonify [("error", VStr "Empty message")]))) started [].
Proof.
  intros Hbody Hmode Hblank.
  rewrite (chat_data _ _ _ _ Hbody), chat_cases.
  apply (usable_mode_iff fields started) in Hmode as [mode ->].
  assert (exists raw, or_else (default VNone (dict_get "message" fields)) (VStr "") = VStr raw
                      /\ strip raw = "") as (raw & -> & ->).
  { unfold blank_message in Hblank.
    destruct (dict_get "message" fields) as [[| | |s| |]|]; try discriminate.
    - now exists "".
    - exists s. split; [apply or_else_message | now apply strip_empty_iff].
    - now exists "". }
  reflexivity.
Qed.

Lemma chat_blank_message_witness :
  chat (canned (Generated "Liftoff"))
       (VDict [("message", VStr "   "); ("mode", VStr "Teacher")]) started =
  Run (Ok (Response 400 (jsonify [("error", VStr "Empty message")]))) started [].
Proof.
  apply (chat_blank_message _ _ [("message", VStr "   "); ("mode", VStr "Teacher")]);
    reflexivity.
Defined.

(** C1 as stated fails: line 72 lower-cases the mode before line 74 looks at
    the message, so a blank message sent with a numeric mode ends in an
    escaped [AttributeError], which Flask reports as a 500, not in the 400
    response. *)
Lemma chat_blank_message_numeric_mode :
  blank_message [("message", VStr "   "); ("mode", VNum (Qmake 5 1))] = true /\
  chat (canned (Generated "Liftoff"))
       (VDict [("message", VStr "   "); ("mode", VNum (Qmake 5 1))]) started =
  Run (Raise AttributeError) started [] /\
  http_status (outcome (chat (canned (Generated "Liftoff"))
       (VDict [("message", VStr "   "); ("mode", VNum (Qmake 5 1))]) started)) = 500%Z.
Proof. repeat split. Qed.

(** ** Mode resolution *)

(** C2: when the mode computed at line 72 is not a key of [PROFILES], the
    request carries a non-empty mode string, the mode is that string
    lower-cased and differs from ["default"]; the profile selected is the
    default one, every call to the SDK carries its system instruction and
    generation parameters, and a successful response echoes the lower-cased
    requested mode. *)
Theorem unknown_mode_falls_back (client : call -> upstream) (body : value)
    (fields : list (string * value)) (mode : string) :
  or_else body (VDict []) = VDict fields ->
  outcome (requested_mode (VDict fields) started) = Ok mode ->
  PROFILES started !! mode = None ->
  (exists s, dict_get "mode" fields = Some (VStr s) /\ s <> "" /\ mode = lower s) /\
  mode <> "default" /\
  select_profile mode started = Run (Ok default_profile) started [] /\
  forall c, SdkCalled c ∈ log (chat client body started) ->
    call_system_instruction c = system default_profile /\
    call_generation_config c = generation_config default_profile /\
    forall text, client c = Generated text ->
      exists reply, chat client body started =
        Run (Ok (Response 200 (jsonify [("reply", reply); ("mode", VStr mode)])))
            started [SdkCalled c].
Proof.
  intros Hbody Hmode Hunknown.
  assert (mode <> "default") as Hnd.
  { intros ->. rewrite profiles_default in Hunknown. discriminate. }
  assert (select_profile mode started = Run (Ok default_profile) started []) as Hsel.
  { rewrite select_profile_run, profiles_default, Hunknown. reflexivity. }
  split; [|split; [exact Hnd | split; [exact Hsel|]]].
  - destruct (requested_mode_inv _ _ _ Hmode) as [-> | H]; [now destruct Hnd | exact H].
  - intros c Hcall. exact (called_with_profile _ _ _ _ _ _ Hbody Hmode Hsel Hcall).
Qed.

Lemma unknown_mode_falls_back_witness :
  select_profile "pirate" started = Run (Ok default_profile) started [] /\
  exists c,
    chat (canned (Generated "Ahoy"))
         (VDict [("message", VStr "Hello"); ("mode", VStr "Pirate")]) started =
    Run (Ok (Response 200 (jsonify [("reply", VStr "Ahoy"); ("mode", VStr "pirate")])))
        started [SdkCalled c] /\
    call_system_instruction c = system default_profile /\
    call_generation_config c = generation_config default_profile.
Proof.
  destruct (unknown_mode_falls_back (canned (Generated "Ahoy"))
              (VDict [("message", VStr "Hello"); ("mode", VStr "Pirate")])
              [("message", VStr "Hello"); ("mode", VStr "Pirate")] "pirate"
              eq_refl eq_refl eq_refl) as (_ & _ & Hsel & Hcall).
  split; [exact Hsel|].
  exists (Call MODEL_NAME_literal (system default_profile)
            (generation_config default_profile) [Content "user" [VStr "Hello"]]).
  split; [reflexivity|].
  destruct (Hcall (Call MODEL_NAME_literal (system default_profile)
                     (generation_config default_profile) [Content "user" [VStr "Hello"]]))
    as (Hsys & Hcfg & _); [|now split].
  apply list_elem_of_singleton. reflexivity.
Defined.

(** ** The conversation window *)

Lemma last_n_fmap {A B : Type} (f : A -> B) (n : nat) (l : list A) :
  last_n n (f <$> l) = f <$> last_n n l.
Proof. unfold last_n. now rewrite length_fmap, fmap_drop. Qed.

Lemma length_last_n {A : Type} (n : nat) (l : list A) :
  length (last_n n l) = Nat.min (length l) n.
Proof. unfold last_n. rewrite length_drop. lia. Qed.

(** C3: for a request with a message that is not empty after trimming and a
    history list of [n] items, the turn sequence of any call to the SDK is
    the last [min n 8] history turns in their order, each in the role/parts
    shape, followed by the trimmed message as a ["user"] turn:
    [min n 8 + 1] entries in all.  The call is made, once, whenever the
    window holds dicts only and the mode is one line 72 accepts. *)
Theorem history_window (client : call -> upstream) (body : value)
    (fields : list (string * value)) (msg : string) (items : list value) :
  or_else body (VDict []) = VDict fields ->
  dict_get "message" fields = Some (VStr msg) ->
  strip msg <> "" ->
  dict_get "history" fields = Some (VList items) ->
  (forall c, SdkCalled c ∈ log (chat client body started) ->
     exists turns,
       last_n 8 items = VDict <$> turns /\
       call_contents c =
         ((content_of_turn <$> turns) ++ [Content "user" [VStr (strip msg)]])%list /\
       length (call_contents c) = Nat.min (length items) 8 + 1) /\
  (forall turns,
     last_n 8 items = VDict <$> turns ->
     usable_mode fields = true ->
     exists c, log (chat client body started) = [SdkCalled c]).
Proof.
  intros Hbody Hmsg Hstrip Hhist. split.
  - intros c Hcall.
    apply chat_called in Hcall
      as (fields' & raw & mode & p & turns & Hb & Hraw & _ & _ & _ & Hw & -> & _).
    rewrite Hbody in Hb. injection Hb as <-.
    rewrite (message_text _ _ Hmsg) in Hraw. injection Hraw as <-.
    rewrite Hhist in Hw. cbn in Hw. injection Hw as Hw.
    exists turns. cbn [call_contents]. repeat split; [assumption|].
    rewrite length_app, length_fmap.
    rewrite <- (length_fmap VDict turns), <- Hw, length_last_n. reflexivity.
  - intros turns Hw Hmode.
    apply (usable_mode_iff fields started) in Hmode as [mode Hmode].
    pose proof (select_profile_run mode started) as Hsel.
    rewrite profiles_default in Hsel.
    rewrite (chat_data _ _ _ _ Hbody).
    rewrite (chat_relays client fields started msg mode
               (default default_profile (PROFILES started !! mode)) turns).
    + eexists. reflexivity.
    + now apply message_text.
    + assumption.
    + assumption.
    + now rewrite Hsel.
    + rewrite Hhist. cbn. now rewrite Hw.
Qed.

Lemma history_window_witness :
  exists c,
    log (chat (canned (Generated "Ahoy"))
           (VDict [("message", VStr " Hello "); ("history", VList (VDict <$> nine_turns))])
           started) = [SdkCalled c] /\
    exists turns,
      last_n 8 (VDict <$> nine_turns) = VDict <$> turns /\
      call_contents c =
        ((content_of_turn <$> turns) ++ [Content "user" [VStr (strip " Hello ")]])%list /\
      length (call_contents c) = Nat.min (length (VDict <$> nine_turns)) 8 + 1.
Proof.
  destruct (history_window (canned (Generated "Ahoy"))
              (VDict [("message", VStr " Hello "); ("history", VList (VDict <$> nine_turns))])
              [("message", VStr " Hello "); ("history", VList (VDict <$> nine_turns))]
              " Hello " (VDict <$> nine_turns)
              eq_refl eq_refl ltac:(discriminate) eq_refl) as [Hshape Hcalled].
  destruct (Hcalled (last_n 8 nine_turns) eq_refl eq_refl) as [c Hc].
  exists c. split; [exact Hc|].
  apply Hshape. rewrite Hc. apply list_elem_of_singleton. reflexivity.
Defined.

Example nine_turns_window :
  log (chat (canned (Generated "Ahoy"))
         (VDict [("message", VStr " Hello "); ("history", VList (VDict <$> nine_turns))])
         started) =
  [SdkCalled (Call MODEL_NAME_literal (system default_profile)
                (generation_config default_profile)
                (((fun t => Content "model" [VStr t])
                    <$> ["2"; "3"; "4"; "5"; "6"; "7"; "8"; "9"]) ++
                 [Content "user" [VStr "Hello"]])%list)].
Proof. reflexivity. Qed.

(** ** Relaying the answer *)

Lemma requested_mode_source (fields : list (string * value)) (g : server) (mode : string) :
  outcome (requested_mode (VDict fields) g) = Ok mode ->
  (mode = "default" /\
   (dict_get "mode" fields = None \/
    exists v, dict_get "mode" fields = Some v /\ truthy v = false)) \/
  (exists s, dict_get "mode" fields = Some (VStr s) /\ s <> "" /\ mode = lower s).
Proof.
  rewrite requested_mode_run. cbn [outcome]. unfold or_else.
  destruct (dict_get "mode" fields) as [v|]; cbn [default from_option id].
  - destruct (truthy v) eqn:Hv.
    + destruct v as [| | |s| |]; cbn; intros H; try discriminate H.
      injection H as <-. right. exists s.
      repeat split. intros ->. discriminate.
    + cbn. intros H. injection H as <-. left. split; [reflexivity|]. right. eauto.
  - cbn. intros H. injection H as <-. left. split; [reflexivity|]. now left.
Qed.

(** C4: on every request for which the SDK is called and returns text, the
    handler answers 200 with body [{"reply": t, "mode": m}].  Here [t] is
    the text, or the placeholder ["(No response text)"] when the text is
    empty, and [m] is the resolved mode name: ["default"] when the request
    has no [mode] or a falsy one, and otherwise the requested mode string in
    lower case. *)
Theorem success_reply (client : call -> upstream) (body : value) (c : call)
    (text : string) :
  SdkCalled c ∈ log (chat client body started) ->
  client c = Generated text ->
  exists fields mode,
    or_else body (VDict []) = VDict fields /\
    ((mode = "default" /\
      (dict_get "mode" fields = None \/
       exists v, dict_get "mode" fields = Some v /\ truthy v = false)) \/
     (exists s, dict_get "mode" fields = Some (VStr s) /\ s <> "" /\ mode = lower s)) /\
    outcome (chat client body started) =
    Ok (Response 200
          (jsonify [("reply", VStr (if String.eqb text "" then "(No response text)" else text));
                    ("mode", VStr mode)])).
Proof.
  intros Hcall Htext.
  apply chat_called in Hcall
    as (fields & raw & mode & p & turns & Hb & _ & _ & Hm & _ & _ & _ & ->).
  exists fields, mode. split; [exact Hb|].
  split; [exact (requested_mode_source _ _ _ Hm)|].
  rewrite Htext. cbn. unfold or_else. cbn. now destruct (String.eqb text "").
Qed.

Lemma success_reply_witness :
  outcome (chat (canned (Generated ""))
             (VDict [("message", VStr "Hello"); ("mode", VStr "Support")]) started) =
  Ok (Response 200 (jsonify [("reply", VStr "(No response text)");
                             ("mode", VStr "support")])).
Proof.
  destruct (success_reply (canned (Generated ""))
              (VDict [("message", VStr "Hello"); ("mode", VStr "Support")])
              (Call MODEL_NAME_literal (system support_profile)
                    (generation_config support_profile) [Content "user" [VStr "Hello"]])
              "")
    as (fields & mode & Hbody & Hmode & Hout).
  - apply list_elem_of_singleton. reflexivity.
  - reflexivity.
  - injection Hbody as <-.
    destruct Hmode as [[_ [Hnone | (v & Hv & Hfalsy)]] | (s & Hs & _ & ->)].
    + discriminate Hnone.
    + injection Hv as <-. discriminate Hfalsy.
    + injection Hs as <-. exact Hout.
Defined.

(** C5: on every request for which the SDK is called and raises an
    exception [e], the handler answers 500 with body [{"error": str(e)}],
    and that call is the only one made. *)
Theorem upstream_failure (client : call -> upstream) (body : value) (c : call)
    (description : string) :
  SdkCalled c ∈ log (chat client body started) ->
  client c = Failed description ->
  outcome (chat client body started) =
    Ok (Response 500 (jsonify [("error", VStr description)])) /\
  log (chat client body started) = [SdkCalled c].
Proof.
  intros Hcall Hfail.
  apply chat_called in Hcall
    as (fields & raw & mode & p & turns & _ & _ & _ & _ & _ & _ & _ & ->).
  rewrite Hfail. split; reflexivity.
Qed.

Lemma upstream_failure_witness :
  outcome (chat (canned (Failed "429 quota exceeded"))
             (VDict [("message", VStr "Hello")]) started) =
    Ok (Response 500 (jsonify [("error", VStr "429 quota exceeded")])) /\
  log (chat (canned (Failed "429 quota exceeded"))
         (VDict [("message", VStr "Hello")]) started) =
    [SdkCalled (Call MODEL_NAME_literal (system default_profile)
                  (generation_config default_profile) [Content "user" [VStr "Hello"]])].
Proof.
  apply (upstream_failure (canned (Failed "429 quota exceeded"))
           (VDict [("message", VStr "Hello")])).
  - apply list_elem_of_singleton. reflexivity.
  - reflexivity.
Defined.

(** ** Case-insensitive modes *)

Lemma resolved_profile_run (fields : list (string * value)) (s : string) (g : server) :
  dict_get "mode" fields = Some (VStr s) ->
  resolved_profile (VDict fields) g =
  select_profile (if String.eqb s "" then "default" else lower s) g.
Proof.
  intros Hmode. unfold resolved_profile.
  rewrite (bind_quiet _ _ _ _ (requested_mode_run fields g)), Hmode.
  destruct s; reflexivity.
Qed.

(** C6: the profile selected for a mode string [m] is the one selected for
    its lower-case form. *)
Theorem mode_case_insensitive (fields fields' : list (string * value)) (m : string) :
  dict_get "mode" fields = Some (VStr m) ->
  dict_get "mode" fields' = Some (VStr (lower m)) ->
  resolved_profile (VDict fields) started = resolved_profile (VDict fields') started.
Proof.
  intros H H'.
  rewrite (resolved_profile_run _ _ _ H), (resolved_profile_run _ _ _ H').
  rewrite lower_idempotent.
  destruct m; reflexivity.
Qed.

Lemma mode_case_insensitive_witness :
  resolved_profile (VDict [("message", VStr "Hello"); ("mode", VStr "Teacher")]) started =
  resolved_profile (VDict [("mode", VStr "teacher")]) started.
Proof.
  exact (mode_case_insensitive [("message", VStr "Hello"); ("mode", VStr "Teacher")]
           [("mode", VStr "teacher")] "Teacher" eq_refl eq_refl).
Defined.

Example teacher_either_case :
  resolved_profile (VDict [("mode", VStr "Teacher")]) started =
    Run (Ok teacher_profile) started [] /\
  resolved_profile (VDict [("mode", VStr "teacher")]) started =
    Run (Ok teacher_profile) started [].
Proof. split; reflexivity. Qed.

(** ** Start-up *)

(** C7: with [GEMINI_API_KEY] absent or empty, the module body prints its
    four notices and raises [RuntimeError]; it stops there, with the SDK not
    configured, no global assigned and no route registered. *)
Theorem missing_key_fails_fast (environ : gmap string string) :
  environ !! "GEMINI_API_KEY" = None \/ environ !! "GEMINI_API_KEY" = Some "" ->
  module_init environ blank_server =
    Run (Raise (RuntimeError
                  "Missing Gemini API key. Please set GEMINI_API_KEY environment variable."))
        blank_server
        [Printed KeyNotFound; Printed PleaseSetIt; Printed OnWindows; Printed OnUnix] /\
  routes (final (module_init environ blank_server)) = [].
Proof.
  intros H. unfold module_init.
  destruct H as [-> | ->]; split; reflexivity.
Qed.

Lemma missing_key_fails_fast_witness :
  module_init (<["PATH" := "/usr/bin"]> ∅) blank_server =
    Run (Raise (RuntimeError
                  "Missing Gemini API key. Please set GEMINI_API_KEY environment variable."))
        blank_server
        [Printed KeyNotFound; Printed PleaseSetIt; Printed OnWindows; Printed OnUnix] /\
  routes (final (module_init (<["PATH" := "/usr/bin"]> ∅) blank_server)) = [].
Proof.
  apply (missing_key_fails_fast (<["PATH" := "/usr/bin"]> ∅)).
  left. reflexivity.
Defined.

(** With a key, the module body runs to its end and leaves [started]. *)
Lemma module_init_started (environ : gmap string string) (key : string) :
  environ !! "GEMINI_API_KEY" = Some key ->
  key <> "" ->
  module_init environ blank_server = Run (Ok tt) started [SdkConfigured key].
Proof.
  intros H Hkey. unfold module_init. rewrite H.
  destruct key as [|c key]; [now destruct Hkey|]. reflexivity.
Qed.

(** ** Statelessness *)

Lemma chat_final (client : call -> upstream) (body : value) (g : server) :
  final (chat client body g) = g.
Proof.
  destruct (or_else body (VDict [])) as [| | | | |fields] eqn:Hbody;
    try (rewrite chat_not_dict by (intros f; rewrite Hbody; discriminate); reflexivity).
  rewrite (chat_data _ _ _ _ Hbody), chat_cases.
  repeat match goal with
         | |- context [match ?x with _ => _ end] => destruct x
         end; reflexivity.
Qed.

Lemma serve_final (requests : list ((call -> upstream) * value)) (g : server) :
  Forall (fun r => final r = g) (serve requests g).
Proof.
  induction requests as [|[client body] rest IH]; cbn [serve]; constructor.
  - apply chat_final.
  - now rewrite chat_final.
Qed.

(** C8: the handler leaves the server state alone.  Whatever requests a
    started process has served, and whatever the SDK answered, the state
    after each of them is the one start-up built: the persona table is
    [PROFILES] as written, and a mode selects the same profile as it did at
    start-up.  (The SDK is handed values; what it might do to the dict
    object it receives lies outside app.py.) *)
Theorem chat_stateless (environ : gmap string string) (key : string)
    (requests : list ((call -> upstream) * value)) :
  environ !! "GEMINI_API_KEY" = Some key ->
  key <> "" ->
  Forall (fun r =>
            final r = final (module_init environ blank_server) /\
            PROFILES (final r) = PROFILES_literal /\
            forall mode, select_profile mode (final r) =
                         select_profile mode (final (module_init environ blank_server)))
         (serve requests (final (module_init environ blank_server))).
Proof.
  intros H Hkey. rewrite (module_init_started _ _ H Hkey). cbn [final].
  eapply Forall_impl; [apply serve_final|].
  intros r ->. repeat split.
Qed.

Lemma chat_stateless_witness :
  Forall (fun r =>
            final r = started /\
            PROFILES (final r) = PROFILES_literal /\
            forall mode, select_profile mode (final r) = select_profile mode started)
         (serve [(canned (Generated "Ahoy"), VDict [("message", VStr "Hello")]);
                 (canned (Failed "503"), VDict [("message", VStr "Again"); ("mode", VStr "teacher")]);
                 (canned (Generated "Ahoy"), VList [VNone])]
                started).
Proof.
  exact (chat_stateless (<["GEMINI_API_KEY" := "secret"]> ∅) "secret"
           [(canned (Generated "Ahoy"), VDict [("message", VStr "Hello")]);
            (canned (Failed "503"), VDict [("message", VStr "Again"); ("mode", VStr "teacher")]);
            (canned (Generated "Ahoy"), VList [VNone])]
           eq_refl ltac:(discriminate)).
Defined.

(** ** What is forwarded of a turn *)

(** Every item of the window reaches the SDK as the entry [content_of_turn]
    gives, at the same position. *)
Lemma forwarded_turn (client : call -> upstream) (body : value)
    (fields : list (string * value)) (items : list value) (c : call)
    (i : nat) (turn : value) :
  or_else body (VDict []) = VDict fields ->
  dict_get "history" fields = Some (VList items) ->
  SdkCalled c ∈ log (chat client body started) ->
  last_n 8 items !! i = Some turn ->
  exists t, turn = VDict t /\ call_contents c !! i = Some (content_of_turn t).
Proof.
  intros Hbody Hhist Hcall Hi.
  apply chat_called in Hcall
    as (fields' & raw & mode & p & turns & Hb & _ & _ & _ & _ & Hw & -> & _).
  rewrite Hbody in Hb. injection Hb as <-.
  rewrite Hhist in Hw. cbn in Hw. injection Hw as Hw.
  rewrite Hw in Hi. apply list_lookup_fmap_Some in Hi as (t & -> & Ht).
  exists t. split; [reflexivity|]. cbn [call_contents].
  rewrite lookup_app_l by (rewrite length_fmap; eapply lookup_lt_Some; eassumption).
  now rewrite list_lookup_fmap, Ht.
Qed.

Lemma role_of_turn (t : list (string * value)) :
  (dict_get "role" t = Some (VStr "user") -> role (content_of_turn t) = "user") /\
  (dict_get "role" t <> Some (VStr "user") -> role (content_of_turn t) = "model").
Proof.
  unfold content_of_turn. cbn [role]. split.
  - now intros ->.
  - intros H. destruct (dict_get "role" t) as [[| | |s| |]|]; try reflexivity.
    cbn. destruct (String.eqb_spec s "user") as [->|]; [now destruct H | reflexivity].
Qed.

(** C9: whenever the SDK is called, each turn of the history window is
    forwarded at its position, with role ["user"] when its [role] field is
    exactly the string ["user"], and with role ["model"] in every other case
    (field absent, null, ["model"], any other value). *)
Theorem role_forwarding (client : call -> upstream) (body : value)
    (fields : list (string * value)) (items : list value) (c : call)
    (i : nat) (turn : value) :
  or_else body (VDict []) = VDict fields ->
  dict_get "history" fields = Some (VList items) ->
  SdkCalled c ∈ log (chat client body started) ->
  last_n 8 items !! i = Some turn ->
  exists t entry,
    turn = VDict t /\
    call_contents c !! i = Some entry /\
    (dict_get "role" t = Some (VStr "user") -> role entry = "user") /\
    (dict_get "role" t <> Some (VStr "user") -> role entry = "model").
Proof.
  intros Hbody Hhist Hcall Hi.
  destruct (forwarded_turn _ _ _ _ _ _ _ Hbody Hhist Hcall Hi) as (t & -> & Hc).
  exists t, (content_of_turn t). repeat split; try assumption; apply role_of_turn.
Qed.

Lemma role_forwarding_witness :
  exists t entry,
    VDict [("role", VStr "User"); ("text", VStr "Hi")] = VDict t /\
    call_contents (Call MODEL_NAME_literal (system default_profile)
                     (generation_config default_profile)
                     [Content "user" [VStr "Hi"]; Content "model" [VStr "Hi"];
                      Content "user" [VStr "Hello"]]) !! 1 = Some entry /\
    (dict_get "role" t = Some (VStr "user") -> role entry = "user") /\
    (dict_get "role" t <> Some (VStr "user") -> role entry = "model").
Proof.
  apply (role_forwarding (canned (Generated "Ahoy"))
           (VDict [("message", VStr "Hello");
                   ("history", VList [VDict [("role", VStr "user"); ("text", VStr "Hi")];
                                      VDict [("role", VStr "User"); ("text", VStr "Hi")]])])
           [("message", VStr "Hello");
            ("history", VList [VDict [("role", VStr "user"); ("text", VStr "Hi")];
                               VDict [("role", VStr "User"); ("text", VStr "Hi")]])]
           [VDict [("role", VStr "user"); ("text", VStr "Hi")];
            VDict [("role", VStr "User"); ("text", VStr "Hi")]]).
  - reflexivity.
  - reflexivity.
  - apply list_elem_of_singleton. reflexivity.
  - reflexivity.
Defined.

Example roles_of_a_mixed_history :
  role <$> (content_of_turn <$>
              [[("role", VStr "user")]; [("role", VStr "model")]; [("role", VNone)];
               [("text", VStr "Hi")]; [("role", VStr "USER")]; [("role", VBool true)]]) =
  ["user"; "model"; "model"; "model"; "model"; "model"].
Proof. reflexivity. Qed.

(** ** Defaults of the optional fields *)

Lemma dict_get_cons_ne (k k' : string) (v : value) (fields : list (string * value)) :
  k <> k' -> dict_get k ((k', v) :: fields) = dict_get k fields.
Proof.
  intros H. cbn [dict_get]. apply String.eqb_neq in H. rewrite H.
  now destruct (dict_get k fields).
Qed.

Lemma requested_mode_default (fields : list (string * value)) (g : server) :
  dict_get "mode" fields = None \/ dict_get "mode" fields = Some VNone ->
  requested_mode (VDict fields) g = Run (Ok "default") g [].
Proof.
  intros H. rewrite requested_mode_run. now destruct H as [-> | ->].
Qed.

(** C10: the optional fields have fixed defaults.
    - A request whose [mode] is absent or null selects the default profile:
      line 72 yields ["default"], every call to the SDK carries the default
      profile's instruction and parameters, and a successful response has
      ["mode": "default"].
    - A request without [history] is handled exactly as the same request
      with ["history": []].
    - A forwarded turn without [text] has the empty string as its content. *)
Theorem optional_field_defaults (client : call -> upstream) :
  (forall body fields,
     or_else body (VDict []) = VDict fields ->
     dict_get "mode" fields = None \/ dict_get "mode" fields = Some VNone ->
     requested_mode (VDict fields) started = Run (Ok "default") started [] /\
     select_profile "default" started = Run (Ok default_profile) started [] /\
     forall c, SdkCalled c ∈ log (chat client body started) ->
       call_system_instruction c = system default_profile /\
       call_generation_config c = generation_config default_profile /\
       forall text, client c = Generated text ->
         exists reply, chat client body started =
           Run (Ok (Response 200 (jsonify [("reply", reply); ("mode", VStr "default")])))
               started [SdkCalled c]) /\
  (forall fields,
     dict_get "history" fields = None ->
     chat client (VDict fields) started =
     chat client (VDict (("history", VList []) :: fields)) started) /\
  (forall body fields items c i t,
     or_else body (VDict []) = VDict fields ->
     dict_get "history" fields = Some (VList items) ->
     SdkCalled c ∈ log (chat client body started) ->
     last_n 8 items !! i = Some (VDict t) ->
     dict_get "text" t = None ->
     exists entry, call_contents c !! i = Some entry /\ parts entry = [VStr ""]).
Proof.
  repeat apply conj.
  - intros body fields Hbody Hmode.
    pose proof (requested_mode_default fields started Hmode) as Hdef.
    assert (select_profile "default" started = Run (Ok default_profile) started [])
      as Hsel by reflexivity.
    split; [exact Hdef | split; [exact Hsel|]].
    intros c Hcall.
    apply (called_with_profile _ _ fields "default" default_profile c Hbody);
      [now rewrite Hdef | exact Hsel | exact Hcall].
  - intros fields Hhist.
    rewrite !chat_cases, !requested_mode_run.
    rewrite !(dict_get_cons_ne _ "history") by discriminate.
    cbn [dict_get]. rewrite Hhist. reflexivity.
  - intros body fields items c i t Hbody Hhist Hcall Hi Htext.
    destruct (forwarded_turn _ _ _ _ _ _ _ Hbody Hhist Hcall Hi) as (t' & Ht & Hc).
    injection Ht as <-.
    exists (content_of_turn t). split; [assumption|].
    unfold content_of_turn. cbn [parts]. now rewrite Htext.
Qed.

Lemma optional_field_defaults_witness :
  (exists reply,
     chat (canned (Generated "Ahoy")) (VDict [("message", VStr "Hello"); ("mode", VNone)])
          started =
     Run (Ok (Response 200 (jsonify [("reply", reply); ("mode", VStr "default")])))
         started
         [SdkCalled (Call MODEL_NAME_literal (system default_profile)
                       (generation_config default_profile) [Content "user" [VStr "Hello"]])]) /\
  chat (canned (Generated "Ahoy")) (VDict [("message", VStr "Hello")]) started =
  chat (canned (Generated "Ahoy"))
       (VDict [("history", VList []); ("message", VStr "Hello")]) started /\
  (exists entry,
     call_contents (Call MODEL_NAME_literal (system default_profile)
                      (generation_config default_profile)
                      [Content "user" [VStr ""]; Content "user" [VStr "Hello"]]) !! 0
       = Some entry /\
     parts entry = [VStr ""]).
Proof.
  destruct (optional_field_defaults (canned (Generated "Ahoy"))) as (Hmode & Hhist & Htext).
  repeat apply conj.
  - destruct (Hmode (VDict [("message", VStr "Hello"); ("mode", VNone)])
                [("message", VStr "Hello"); ("mode", VNone)] eq_refl (or_intror eq_refl))
      as (_ & _ & Hcall).
    destruct (Hcall (Call MODEL_NAME_literal (system default_profile)
                       (generation_config default_profile) [Content "user" [VStr "Hello"]]))
      as (_ & _ & Hreply).
    + apply list_elem_of_singleton. reflexivity.
    + exact (Hreply "Ahoy" eq_refl).
  - exact (Hhist [("message", VStr "Hello")] eq_refl).
  - apply (Htext (VDict [("message", VStr "Hello");
                         ("history", VList [VDict [("role", VStr "user")]])])
             [("message", VStr "Hello"); ("history", VList [VDict [("role", VStr "user")]])]
             [VDict [("role", VStr "user")]] _ 0 [("role", VStr "user")]);
      try reflexivity.
    apply list_elem_of_singleton. reflexivity.
Defined.

(** * Further properties of the handler and of start-up *)

(** ** More on the built-ins *)

Lemma rstrip_cons (c : ascii) (s : string) :
  rstrip (String c s) =
  match rstrip s with
  | EmptyString => if isspace c then EmptyString else String c EmptyString
  | r => String c r
  end.
Proof. reflexivity. Qed.

Lemma rstrip_idempotent (s : string) : rstrip (rstrip s) = rstrip s.
Proof.
  induction s as [|c s IH]; [reflexivity|].
  rewrite rstrip_cons. destruct (rstrip s) as [|d r] eqn:E.
  - destruct (isspace c) eqn:Hc; [reflexivity|]. rewrite rstrip_cons. cbn. now rewrite Hc.
  - rewrite rstrip_cons, IH. reflexivity.
Qed.

Lemma rstrip_keeps_head (c : ascii) (r : string) :
  isspace c = false -> exists r', rstrip (String c r) = String c r'.
Proof.
  intros Hc. cbn [rstrip]. destruct (rstrip r); [rewrite Hc|]; eauto.
Qed.

(** What [strip] returns has no white space left at either end. *)
Lemma strip_fixed (s : string) :
  lstrip (strip s) = strip s /\ rstrip (strip s) = strip s.
Proof.
  unfold strip. split; [|apply rstrip_idempotent].
  destruct (lstrip_head s) as [-> | (c & r & -> & Hc)]; [reflexivity|].
  destruct (rstrip_keeps_head c r Hc) as [r' ->]. cbn [lstrip]. now rewrite Hc.
Qed.

Lemma strip_idempotent (s : string) : strip (strip s) = strip s.
Proof.
  unfold strip at 1. destruct (strip_fixed s) as [-> ->]. reflexivity.
Qed.

Lemma last_n_idempotent {A : Type} (n : nat) (l : list A) :
  last_n n (last_n n l) = last_n n l.
Proof.
  unfold last_n at 1. rewrite length_last_n.
  replace (Nat.min (length l) n - n) with 0 by lia. reflexivity.
Qed.

Lemma forallb_is_dict (l : list value) :
  forallb is_dict l = true <-> exists turns, l = VDict <$> turns.
Proof.
  split.
  - induction l as [|v l IH]; intros H; [now exists []|].
    cbn in H. apply andb_true_iff in H as [Hv Hl].
    destruct v as [| | | | |t]; try discriminate.
    destruct (IH Hl) as [turns ->]. now exists (t :: turns).
  - intros [turns ->]. induction turns as [|t turns IH]; [reflexivity | exact IH].
Qed.

Lemma requested_mode_lower (data : value) (g : server) (mode : string) :
  outcome (requested_mode data g) = Ok mode -> lower mode = mode.
Proof.
  destruct data as [| | | | |fields]; try discriminate.
  rewrite requested_mode_run. cbn [outcome].
  destruct (or_else _ _) as [| | |s| |]; try discriminate.
  intros H. injection H as <-. apply lower_idempotent.
Qed.

(** ** The three ways a request can end *)

Lemma chat_trichotomy (client : call -> upstream) (body : value) (g : server) :
  (exists e, builtin_error e = true /\ chat client body g = Run (Raise e) g []) \/
  chat client body g = Run (Ok empty_message) g [] \/
  (exists c mode,
     outcome (requested_mode (or_else body (VDict [])) g) = Ok mode /\
     chat client body g = Run (Ok (relayed mode (client c))) g [SdkCalled c]).
Proof.
  destruct (or_else body (VDict [])) as [| | | | |fields] eqn:Hbody;
    try (left; exists AttributeError; split; [reflexivity|];
         apply chat_not_dict; intros f; rewrite Hbody; discriminate).
  rewrite (chat_data _ _ _ _ Hbody), chat_cases.
  destruct (or_else (default VNone (dict_get "message" fields)) (VStr ""));
    try (left; exists AttributeError; now split).
  rewrite requested_mode_run. cbn [outcome].
  destruct (or_else (default VNone (dict_get "mode" fields)) (VStr "default"));
    try (left; exists AttributeError; now split).
  destruct (String.eqb (strip s) ""); [right; now left|].
  rewrite select_profile_run. cbn [outcome].
  destruct (PROFILES g !! "default") as [d|]; [|left; exists KeyError; now split].
  unfold last8, lift. cbn [outcome].
  destruct (default (VList []) (dict_get "history" fields)) as [| | |h|items|];
    try (left; exists TypeError; now split);
    try (left; exists KeyError; now split).
  - destruct (for_each_cases (last_n 8 (chars h)) g) as [[turns ->] | ->].
    + rewrite for_each_turns. right. right. eauto.
    + left. exists AttributeError. now split.
  - destruct (for_each_cases (last_n 8 items) g) as [[turns ->] | ->].
    + rewrite for_each_turns. right. right. eauto.
    + left. exists AttributeError. now split.
Qed.

(** X2: a request ends in one of three ways, and the SDK is called at most
    once.  An escaped exception is an [AttributeError], [TypeError] or
    [KeyError] raised before any call; a 400 is answered without a call; a
    200 or a 500 is answered after exactly one call.  No other status is
    produced. *)
Theorem chat_one_call_at_most (client : call -> upstream) (body : value) (g : server) :
  (log (chat client body g) = [] \/ exists c, log (chat client body g) = [SdkCalled c]) /\
  (forall e, outcome (chat client body g) = Raise e ->
     builtin_error e = true /\ log (chat client body g) = []) /\
  (forall r, outcome (chat client body g) = Ok r ->
     (status r = 400%Z /\ log (chat client body g) = []) \/
     ((status r = 200%Z \/ status r = 500%Z) /\
      exists c, log (chat client body g) = [SdkCalled c])).
Proof.
  destruct (chat_trichotomy client body g)
    as [(e & He & ->) | [-> | (c & mode & _ & ->)]]; cbn [outcome log].
  - split; [now left|]. split.
    + intros e' H. injection H as <-. now split.
    + intros r H. discriminate H.
  - split; [now left|]. split.
    + intros e' H. discriminate H.
    + intros r H. injection H as <-. left. now split.
  - split; [right; now exists c|]. split.
    + intros e' H. discriminate H.
    + intros r H. injection H as <-. right. split; [|now exists c].
      destruct (client c); cbn; [now left | now right].
Qed.

(** X3: a body that is not a JSON object.  When it is falsy ([null], [0],
    [false], the empty string, the empty list) line 69 replaces it by the
    empty object and the answer is the 400 of an empty message; when it is
    truthy, [data.get] raises [AttributeError].  No call is made either way. *)
Theorem chat_non_object_body (client : call -> upstream) (body : value) (g : server) :
  is_dict body = false ->
  chat client body g =
  if truthy body
  then Run (Raise AttributeError) g []
  else Run (Ok (Response 400 (jsonify [("error", VStr "Empty message")]))) g [].
Proof.
  intros Hbody. destruct (truthy body) eqn:Htruthy.
  - apply chat_not_dict. intros fields. unfold or_else. rewrite Htruthy.
    intros ->. discriminate Hbody.
  - rewrite (chat_data client body [] g) by (unfold or_else; now rewrite Htruthy).
    rewrite chat_cases. reflexivity.
Qed.

Lemma chat_non_object_body_witness :
  chat (canned (Generated "Ahoy")) (VList []) started =
    Run (Ok (Response 400 (jsonify [("error", VStr "Empty message")]))) started [] /\
  chat (canned (Generated "Ahoy")) (VList [VStr "Hello"]) started =
    Run (Raise AttributeError) started [].
Proof.
  split.
  - exact (chat_non_object_body (canned (Generated "Ahoy")) (VList []) started eq_refl).
  - exact (chat_non_object_body (canned (Generated "Ahoy")) (VList [VStr "Hello"]) started
             eq_refl).
Defined.

(** X4: a [message] that is truthy but not a string (a number, [true], a
    non-empty list or object) makes line 70 raise [AttributeError], whatever
    the other fields hold; no call is made. *)
Theorem chat_message_not_a_string (client : call -> upstream) (body : value)
    (fields : list (string * value)) (v : value) (g : server) :
  or_else body (VDict []) = VDict fields ->
  dict_get "message" fields = Some v ->
  truthy v = true ->
  (forall s, v <> VStr s) ->
  chat client body g = Run (Raise AttributeError) g [].
Proof.
  intros Hbody Hmsg Hv Hstr.
  rewrite (chat_data _ _ _ _ Hbody), chat_cases, Hmsg.
  unfold or_else. cbn [default from_option id]. rewrite Hv.
  destruct v as [| | |s| |]; try reflexivity. now destruct (Hstr s).
Qed.

Lemma chat_message_not_a_string_witness :
  chat (canned (Generated "Ahoy"))
       (VDict [("message", VList [VStr "Hello"]); ("mode", VStr "teacher")]) started =
  Run (Raise AttributeError) started [].
Proof.
  apply (chat_message_not_a_string _ _
           [("message", VList [VStr "Hello"]); ("mode", VStr "teacher")]
           (VList [VStr "Hello"])).
  - reflexivity.
  - reflexivity.
  - reflexivity.
  - intros s. discriminate.
Defined.

(** ** Which requests are answered 400, and which are relayed *)

Lemma message_present_iff (fields : list (string * value)) :
  message_present fields = true <->
  exists raw, or_else (default VNone (dict_get "message" fields)) (VStr "") = VStr raw /\
              strip raw <> "".
Proof.
  unfold message_present. split.
  - destruct (dict_get "message" fields) as [[| | |s| |]|]; try discriminate.
    intros H. exists s. split; [apply or_else_message|].
    rewrite strip_empty_iff. now destruct (all_space s).
  - intros (raw & Hraw & Hstrip).
    destruct (dict_get "message" fields) as [v|]; cbn [default from_option id] in Hraw.
    + destruct v as [| | |s| |].
      4: { rewrite or_else_message in Hraw. injection Hraw as ->.
           rewrite strip_empty_iff in Hstrip. now destruct (all_space raw). }
      all: unfold or_else in Hraw; destruct (truthy _);
        [discriminate Hraw | injection Hraw as <-; now destruct Hstrip].
    + injection Hraw as <-. now destruct Hstrip.
Qed.

Lemma message_empty_iff (fields : list (string * value)) :
  message_empty fields = true <->
  exists raw, or_else (default VNone (dict_get "message" fields)) (VStr "") = VStr raw /\
              strip raw = "".
Proof.
  unfold message_empty. split.
  - destruct (dict_get "message" fields) as [v|]; [|now exists ""].
    destruct v as [| | |s| |]; unfold or_else; cbn [default from_option id];
      try (intros H; apply negb_true_iff in H; rewrite H; now exists "").
    intros H. exists s. split; [apply or_else_message | now apply strip_empty_iff].
  - intros (raw & Hraw & Hstrip).
    destruct (dict_get "message" fields) as [v|]; [|reflexivity].
    cbn [default from_option id] in Hraw.
    destruct v as [| | |s| |].
    4: { rewrite or_else_message in Hraw. injection Hraw as ->. now apply strip_empty_iff. }
    all: unfold or_else in Hraw; cbv beta iota;
      match type of Hraw with context [truthy ?v] => destruct (truthy v) end;
      [discriminate Hraw | reflexivity].
Qed.

Lemma chars_not_dicts (s : string) : Forall (fun v => is_dict v = false) (chars s).
Proof. induction s; constructor; auto. Qed.

Lemma no_dicts_fmap (l : list value) (turns : list (list (string * value))) :
  Forall (fun v => is_dict v = false) l -> l = VDict <$> turns -> l = [].
Proof.
  intros H ->. destruct turns as [|t turns]; [reflexivity|].
  cbn in H. inversion H as [|? ? Hd _]. cbn in Hd. discriminate Hd.
Qed.

Lemma last_n_nil {A : Type} (n : nat) (l : list A) :
  0 < n -> last_n n l = [] -> l = [].
Proof.
  intros Hn H. apply (f_equal length) in H. rewrite length_last_n in H.
  destruct l; [reflexivity | cbn [length] in H; lia].
Qed.

Lemma string_window (s : string) (turns : list (list (string * value))) :
  last_n 8 (chars s) = VDict <$> turns -> s = "".
Proof.
  intros H.
  assert (last_n 8 (chars s) = []) as Hnil.
  { eapply no_dicts_fmap; [|exact H]. apply Forall_drop, chars_not_dicts. }
  apply last_n_nil in Hnil; [|lia]. now destruct s.
Qed.

Lemma window_ok_iff (fields : list (string * value)) (g : server) :
  window_ok fields = true <->
  exists turns,
    outcome (last8 (default (VList []) (dict_get "history" fields)) g) = Ok (VDict <$> turns).
Proof.
  unfold window_ok, last8, lift. cbn [outcome].
  destruct (dict_get "history" fields) as [[| | |s|items|]|]; cbn [default from_option id].
  - split; [discriminate | now intros [? ?]].
  - split; [discriminate | now intros [? ?]].
  - split; [discriminate | now intros [? ?]].
  - split.
    + intros ->%String.eqb_eq. now exists [].
    + intros [turns H]. injection H as H. apply string_window in H as ->. reflexivity.
  - rewrite forallb_is_dict. split; intros [turns H]; exists turns; congruence.
  - split; [discriminate | now intros [? ?]].
  - split; [intros _; now exists [] | reflexivity].
Qed.

(** X5: the 400 is answered exactly for the object bodies (or falsy ones)
    whose [mode] line 72 accepts and whose [message] is absent, falsy, or a
    string of white space only. *)
Theorem chat_400_iff (client : call -> upstream) (body : value) (g : server) :
  outcome (chat client body g) =
    Ok (Response 400 (jsonify [("error", VStr "Empty message")])) <->
  exists fields,
    or_else body (VDict []) = VDict fields /\
    usable_mode fields = true /\
    message_empty fields = true.
Proof.
  split.
  - intros H.
    destruct (or_else body (VDict [])) as [| | | | |fields] eqn:Hbody;
      try (rewrite chat_not_dict in H by (intros f; rewrite Hbody; discriminate);
           discriminate H).
    exists fields. split; [reflexivity|].
    rewrite (chat_data _ _ _ _ Hbody), chat_cases in H.
    destruct (or_else (default VNone (dict_get "message" fields)) (VStr ""))
      as [| | |raw| |] eqn:Hmsg; try discriminate H.
    destruct (outcome (requested_mode (VDict fields) g)) as [mode|e] eqn:Hmode;
      [|discriminate H].
    split; [apply (usable_mode_iff fields g); eauto|].
    apply message_empty_iff. exists raw. split; [exact Hmsg|].
    destruct (String.eqb_spec (strip raw) "") as [E|E]; [exact E|].
    exfalso. clear E.
    destruct (outcome (select_profile mode g)); [|discriminate H].
    destruct (outcome (last8 _ g)); [|discriminate H].
    destruct (outcome (for_each turn_content _ g)); [|discriminate H].
    cbn in H. destruct (client _); discriminate H.
  - intros (fields & Hbody & Hmode & Hmsg).
    rewrite (chat_data _ _ _ _ Hbody), chat_cases.
    apply (usable_mode_iff fields g) in Hmode as [mode ->].
    apply message_empty_iff in Hmsg as (raw & -> & ->). reflexivity.
Qed.

Lemma chat_400_iff_witness :
  outcome (chat (canned (Generated "Ahoy"))
             (VDict [("message", VNum (Qmake 0 1)); ("history", VNone)]) started) =
  Ok (Response 400 (jsonify [("error", VStr "Empty message")])).
Proof.
  apply (chat_400_iff (canned (Generated "Ahoy"))
           (VDict [("message", VNum (Qmake 0 1)); ("history", VNone)]) started).
  exists [("message", VNum (Qmake 0 1)); ("history", VNone)].
  repeat split.
Defined.

(** X6: on a started server the SDK is called, once, exactly for the object
    bodies whose [message] is a string with something left after trimming,
    whose [mode] line 72 accepts, and whose [history] is absent, the empty
    string, or a list with dicts only among its last eight items. *)
Theorem chat_calls_iff (client : call -> upstream) (body : value) :
  (exists c, log (chat client body started) = [SdkCalled c]) <->
  exists fields,
    or_else body (VDict []) = VDict fields /\
    message_present fields = true /\
    usable_mode fields = true /\
    window_ok fields = true.
Proof.
  split.
  - intros [c Hc].
    assert (SdkCalled c ∈ log (chat client body started)) as Hin
      by (rewrite Hc; apply list_elem_of_singleton; reflexivity).
    apply chat_called in Hin
      as (fields & raw & mode & p & turns & Hb & Hraw & Hstrip & Hm & _ & Hw & _ & _).
    exists fields. split; [exact Hb|]. split; [|split].
    + apply message_present_iff. eauto.
    + apply (usable_mode_iff fields started). eauto.
    + apply (window_ok_iff fields started). eauto.
  - intros (fields & Hbody & Hmsg & Hmode & Hw).
    apply message_present_iff in Hmsg as (raw & Hraw & Hstrip).
    apply (usable_mode_iff fields started) in Hmode as [mode Hmode].
    apply (window_ok_iff fields started) in Hw as [turns Hw].
    pose proof (select_profile_run mode started) as Hsel.
    rewrite profiles_default in Hsel.
    rewrite (chat_data _ _ _ _ Hbody).
    rewrite (chat_relays client fields started raw mode
               (default default_profile (PROFILES started !! mode)) turns Hraw Hstrip Hmode
               ltac:(now rewrite Hsel) Hw).
    eexists. reflexivity.
Qed.

Lemma chat_calls_iff_witness :
  exists c,
    log (chat (canned (Generated "Ahoy"))
           (VDict [("message", VStr "Hello"); ("history", VStr ""); ("mode", VBool false)])
           started) = [SdkCalled c].
Proof.
  apply (chat_calls_iff (canned (Generated "Ahoy"))
           (VDict [("message", VStr "Hello"); ("history", VStr ""); ("mode", VBool false)])).
  exists [("message", VStr "Hello"); ("history", VStr ""); ("mode", VBool false)].
  repeat split.
Defined.

(** ** A history that cannot be walked *)

(** X7: with a message to send and an accepted mode, a [history] that is
    null, a boolean or a number makes the slice of line 84 raise
    [TypeError]; the exception escapes and no call is made. *)
Theorem chat_history_not_sliceable (client : call -> upstream) (body : value)
    (fields : list (string * value)) (h : value) :
  or_else body (VDict []) = VDict fields ->
  message_present fields = true ->
  usable_mode fields = true ->
  dict_get "history" fields = Some h ->
  h = VNone \/ (exists b, h = VBool b) \/ (exists x, h = VNum x) ->
  chat client body started = Run (Raise TypeError) started [].
Proof.
  intros Hbody Hmsg Hmode Hhist Hh.
  apply message_present_iff in Hmsg as (raw & Hraw & Hstrip).
  apply (usable_mode_iff fields started) in Hmode as [mode Hmode].
  rewrite (chat_data _ _ _ _ Hbody), chat_cases, Hraw, Hmode, Hhist.
  apply String.eqb_neq in Hstrip. rewrite Hstrip.
  rewrite select_profile_run, profiles_default. cbn [outcome].
  destruct Hh as [-> | [[b ->] | [x ->]]]; reflexivity.
Qed.

Lemma chat_history_not_sliceable_witness :
  chat (canned (Generated "Ahoy"))
       (VDict [("message", VStr "Hello"); ("history", VNone)]) started =
  Run (Raise TypeError) started [].
Proof.
  apply (chat_history_not_sliceable _ _
           [("message", VStr "Hello"); ("history", VNone)] VNone);
    try reflexivity.
  left. reflexivity.
Defined.

(** X8: with a message to send and an accepted mode, a [history] list with
    an item among its last eight that is not a dict, or a non-empty string
    as [history], makes [turn.get] raise [AttributeError] inside the loop;
    the exception escapes and no call is made, however many turns before
    the offending one were well formed. *)
Theorem chat_malformed_window (client : call -> upstream) (body : value)
    (fields : list (string * value)) (h : value) :
  or_else body (VDict []) = VDict fields ->
  message_present fields = true ->
  usable_mode fields = true ->
  dict_get "history" fields = Some h ->
  (exists items, h = VList items) \/ (exists s, h = VStr s) ->
  window_ok fields = false ->
  chat client body started = Run (Raise AttributeError) started [].
Proof.
  intros Hbody Hmsg Hmode Hhist Hh Hw.
  assert (forall turns,
            outcome (last8 (default (VList []) (dict_get "history" fields)) started)
            <> Ok (VDict <$> turns)) as Hno.
  { intros turns H.
    assert (window_ok fields = true) as Hok by (apply (window_ok_iff fields started); eauto).
    rewrite Hok in Hw. discriminate Hw. }
  apply message_present_iff in Hmsg as (raw & Hraw & Hstrip).
  apply (usable_mode_iff fields started) in Hmode as [mode Hmode].
  rewrite (chat_data _ _ _ _ Hbody), chat_cases, Hraw, Hmode.
  apply String.eqb_neq in Hstrip. rewrite Hstrip.
  rewrite select_profile_run, profiles_default. cbn [outcome].
  rewrite Hhist in Hno |- *. cbn [default from_option id] in Hno |- *.
  destruct Hh as [[items ->] | [s ->]]; unfold last8, lift in Hno |- *;
    cbn [outcome] in Hno |- *.
  - destruct (for_each_cases (last_n 8 items) started) as [[turns E] | ->];
      [|reflexivity].
    destruct (Hno turns). now rewrite E.
  - destruct (for_each_cases (last_n 8 (chars s)) started) as [[turns E] | ->];
      [|reflexivity].
    destruct (Hno turns). now rewrite E.
Qed.

Lemma chat_malformed_window_witness :
  chat (canned (Generated "Ahoy"))
       (VDict [("message", VStr "Hello");
               ("history", VList [VDict [("role", VStr "user"); ("text", VStr "Hi")];
                                  VStr "not a turn"])]) started =
  Run (Raise AttributeError) started [].
Proof.
  apply (chat_malformed_window _ _
           [("message", VStr "Hello");
            ("history", VList [VDict [("role", VStr "user"); ("text", VStr "Hi")];
                               VStr "not a turn"])]
           (VList [VDict [("role", VStr "user"); ("text", VStr "Hi")]; VStr "not a turn"]));
    try reflexivity.
  left. eexists. reflexivity.
Defined.

(** ** What the handler does not look at *)

(** X9: the handler reads three keys of the body and nothing else: two
    object bodies with the same [message], [history] and [mode] are handled
    alike, in every state and whatever the SDK does. *)
Theorem chat_reads_three_keys (client : call -> upstream)
    (fields fields' : list (string * value)) (g : server) :
  same_request fields fields' ->
  chat client (VDict fields) g = chat client (VDict fields') g.
Proof.
  intros (Hmsg & Hhist & Hmode).
  rewrite !chat_cases, !requested_mode_run, Hmsg, Hhist, Hmode. reflexivity.
Qed.

Lemma chat_reads_three_keys_witness :
  chat (canned (Generated "Ahoy"))
       (VDict [("message", VStr "Hello"); ("user_id", VNum (Qmake 7 1))]) started =
  chat (canned (Generated "Ahoy"))
       (VDict [("stream", VBool true); ("message", VStr "Bye"); ("message", VStr "Hello")])
       started.
Proof.
  apply chat_reads_three_keys. repeat split.
Defined.

(** X10: turns older than the last eight play no part at all: a request
    with a history list and the same request with only the last eight items
    of that list are handled alike, also when an older item is malformed. *)
Theorem chat_ignores_older_turns (client : call -> upstream)
    (fields fields' : list (string * value)) (items : list value) (g : server) :
  dict_get "message" fields = dict_get "message" fields' ->
  dict_get "mode" fields = dict_get "mode" fields' ->
  dict_get "history" fields = Some (VList items) ->
  dict_get "history" fields' = Some (VList (last_n 8 items)) ->
  chat client (VDict fields) g = chat client (VDict fields') g.
Proof.
  intros Hmsg Hmode Hhist Hhist'.
  rewrite !chat_cases, !requested_mode_run, Hmsg, Hmode, Hhist, Hhist'.
  unfold last8, lift. cbn [default from_option id outcome].
  now rewrite last_n_idempotent.
Qed.

Lemma chat_ignores_older_turns_witness :
  chat (canned (Generated "Ahoy"))
       (VDict [("message", VStr "Hello");
               ("history", VList (VNum (Qmake 1 1) :: fmap (M:=list) VDict nine_turns))])
       started =
  chat (canned (Generated "Ahoy"))
       (VDict [("message", VStr "Hello");
               ("history", VList (fmap (M:=list) VDict (last_n 8 nine_turns)))]) started.
Proof.
  apply (chat_ignores_older_turns (canned (Generated "Ahoy"))
           [("message", VStr "Hello");
            ("history", VList (VNum (Qmake 1 1) :: fmap (M:=list) VDict nine_turns))]
           [("message", VStr "Hello");
            ("history", VList (fmap (M:=list) VDict (last_n 8 nine_turns)))]
           (VNum (Qmake 1 1) :: fmap (M:=list) VDict nine_turns) started);
    reflexivity.
Defined.

(** X11: white space around the message and the letter case of the mode do
    not matter: a request with message [m] and mode [md] is handled as the
    one with message [m.strip()] and mode [md.lower()]. *)
Theorem chat_normalises (client : call -> upstream)
    (fields fields' : list (string * value)) (m md : string) (g : server) :
  dict_get "message" fields = Some (VStr m) ->
  dict_get "message" fields' = Some (VStr (strip m)) ->
  dict_get "mode" fields = Some (VStr md) ->
  dict_get "mode" fields' = Some (VStr (lower md)) ->
  dict_get "history" fields = dict_get "history" fields' ->
  chat client (VDict fields) g = chat client (VDict fields') g.
Proof.
  intros Hmsg Hmsg' Hmode Hmode' Hhist.
  rewrite !chat_cases, !requested_mode_run, Hmsg, Hmsg', Hmode, Hmode', Hhist.
  cbn [default from_option id]. rewrite !or_else_message, strip_idempotent.
  destruct md as [|c md]; [reflexivity|].
  unfold or_else. cbn [truthy String.eqb negb lower].
  now rewrite lower_char_idempotent, lower_idempotent.
Qed.

Lemma chat_normalises_witness :
  chat (canned (Generated "Ahoy"))
       (VDict [("message", VStr "  Hello  "); ("mode", VStr "TEACHER")]) started =
  chat (canned (Generated "Ahoy"))
       (VDict [("message", VStr "Hello"); ("mode", VStr "teacher")]) started.
Proof.
  exact (chat_normalises (canned (Generated "Ahoy"))
           [("message", VStr "  Hello  "); ("mode", VStr "TEACHER")]
           [("message", VStr "Hello"); ("mode", VStr "teacher")]
           "  Hello  " "TEACHER" started eq_refl eq_refl eq_refl eq_refl eq_refl).
Defined.

(** ** What a call carries *)

Lemma last8_length (v : value) (g : server) (l : list value) :
  outcome (last8 v g) = Ok l -> length l <= 8.
Proof.
  unfold last8, lift. cbn [outcome].
  destruct v; try discriminate; intros H; injection H as <-;
    rewrite length_last_n; lia.
Qed.

Lemma message_source (fields : list (string * value)) (raw : string) :
  or_else (default VNone (dict_get "message" fields)) (VStr "") = VStr raw ->
  strip raw <> "" ->
  dict_get "message" fields = Some (VStr raw).
Proof.
  intros Hraw Hstrip.
  destruct (dict_get "message" fields) as [v|]; cbn [default from_option id] in Hraw.
  - destruct v as [| | |s| |].
    4: { rewrite or_else_message in Hraw. now injection Hraw as ->. }
    all: unfold or_else in Hraw; destruct (truthy _);
      [discriminate Hraw | injection Hraw as <-; now destruct Hstrip].
  - injection Hraw as <-. now destruct Hstrip.
Qed.

(** X12: every call names the model held in [MODEL_NAME] and ends with the
    new message as a ["user"] turn: the request's [message] is a string [m],
    the last entry of the call is [{"role": "user", "parts": [m.strip()]}],
    and the text sent is not empty and has no white space at either end. *)
Theorem call_ends_with_trimmed_message (client : call -> upstream) (body : value)
    (g : server) (c : call) :
  SdkCalled c ∈ log (chat client body g) ->
  call_model c = MODEL_NAME g /\
  exists fields m,
    or_else body (VDict []) = VDict fields /\
    dict_get "message" fields = Some (VStr m) /\
    last (call_contents c) = Some (Content "user" [VStr (strip m)]) /\
    strip m <> "" /\ lstrip (strip m) = strip m /\ rstrip (strip m) = strip m.
Proof.
  intros Hcall.
  apply chat_called in Hcall
    as (fields & raw & mode & p & turns & Hb & Hraw & Hstrip & _ & _ & _ & -> & _).
  split; [reflexivity|]. exists fields, raw. cbn [call_contents].
  rewrite last_snoc. split; [exact Hb|].
  split; [exact (message_source _ _ Hraw Hstrip)|].
  split; [reflexivity|]. split; [exact Hstrip|]. apply strip_fixed.
Qed.

Lemma call_ends_with_trimmed_message_witness :
  last (call_contents (Call MODEL_NAME_literal (system default_profile)
                         (generation_config default_profile)
                         [Content "user" [VStr "Hello"]])) =
    Some (Content "user" [VStr "Hello"]) /\
  call_model (Call MODEL_NAME_literal (system default_profile)
                (generation_config default_profile) [Content "user" [VStr "Hello"]]) =
    MODEL_NAME started.
Proof.
  destruct (call_ends_with_trimmed_message (canned (Generated "Ahoy"))
              (VDict [("message", VStr "  Hello ")]) started
              (Call MODEL_NAME_literal (system default_profile)
                    (generation_config default_profile) [Content "user" [VStr "Hello"]]))
    as (Hmodel & fields & m & Hbody & Hmsg & Hlast & _).
  - apply list_elem_of_singleton. reflexivity.
  - injection Hbody as <-. injection Hmsg as <-. split; [exact Hlast | exact Hmodel].
Defined.

(** X13: a call carries between one and nine entries; each has role
    ["user"] or ["model"] and exactly one part. *)
Theorem call_contents_shape (client : call -> upstream) (body : value)
    (g : server) (c : call) :
  SdkCalled c ∈ log (chat client body g) ->
  1 <= length (call_contents c) <= 9 /\
  Forall (fun entry => (role entry = "user" \/ role entry = "model") /\
                       length (parts entry) = 1)
         (call_contents c).
Proof.
  intros Hcall.
  apply chat_called in Hcall
    as (fields & raw & mode & p & turns & _ & _ & _ & _ & _ & Hw & -> & _).
  apply last8_length in Hw. rewrite length_fmap in Hw. cbn [call_contents]. split.
  - rewrite length_app, length_fmap. cbn [length]. lia.
  - apply Forall_app. split.
    + apply Forall_fmap, Forall_forall. intros t _. unfold content_of_turn. cbn.
      split; [|reflexivity]. destruct (eq_str _ _); [now left | now right].
    + repeat constructor.
Qed.

Lemma call_contents_shape_witness :
  1 <= length (call_contents
                 (Call MODEL_NAME_literal (system default_profile)
                    (generation_config default_profile)
                    [Content "model" [VNone]; Content "user" [VStr "Hello"]])) <= 9 /\
  Forall (fun entry => (role entry = "user" \/ role entry = "model") /\
                       length (parts entry) = 1)
         (call_contents
            (Call MODEL_NAME_literal (system default_profile)
               (generation_config default_profile)
               [Content "model" [VNone]; Content "user" [VStr "Hello"]])).
Proof.
  apply (call_contents_shape (canned (Generated "Ahoy"))
           (VDict [("message", VStr "Hello");
                   ("history", VList [VDict [("role", VNum (Qmake 3 1)); ("text", VNone)]])])
           started).
  apply list_elem_of_singleton. reflexivity.
Defined.

(** ** Known modes *)




(** ** The 200 response *)

(** X15: a 200 response always has the two fields [reply] and [mode], both
    strings; the reply is never empty, and the mode is in lower case. *)
Theorem ok_reply_is_never_empty (client : call -> upstream) (body : value)
    (g : server) (r : response) :
  outcome (chat client body g) = Ok r ->
  status r = 200%Z ->
  exists reply mode,
    payload r = jsonify [("reply", VStr reply); ("mode", VStr mode)] /\
    reply <> "" /\ lower mode = mode.
Proof.
  intros Hr Hstatus.
  destruct (chat_trichotomy client body g)
    as [(e & _ & H) | [H | (c & mode & Hmode & H)]]; rewrite H in Hr; cbn in Hr.
  - discriminate Hr.
  - injection Hr as <-. discriminate Hstatus.
  - injection Hr as <-. apply requested_mode_lower in Hmode.
    destruct (client c) as [text|d]; [|discriminate Hstatus].
    exists (if String.eqb text "" then no_response_text else text), mode.
    cbn. repeat split; [|now destruct text|exact Hmode].
    unfold or_else. cbn. now destruct (String.eqb text "").
Qed.

Lemma ok_reply_is_never_empty_witness :
  exists reply mode,
    payload (Response 200 (jsonify [("reply", VStr no_response_text);
                                    ("mode", VStr "pirate")])) =
      jsonify [("reply", VStr reply); ("mode", VStr mode)] /\
    reply <> "" /\ lower mode = mode.
Proof.
  apply (ok_reply_is_never_empty (canned (Generated ""))
           (VDict [("message", VStr "Hello"); ("mode", VStr "Pirate")]) started);
    reflexivity.
Defined.

(** ** Requests do not interfere *)

(** X16: a process answers every request as if it were the only one: the
    runs of a sequence of requests are the runs of each request alone in
    the initial state, whatever came before it, escaped exceptions and
    failed calls included. *)
Theorem serve_each_alone (requests : list ((call -> upstream) * value)) (g : server) :
  serve requests g = (fun request => chat (fst request) (snd request) g) <$> requests.
Proof.
  induction requests as [|[client body] rest IH]; [reflexivity|].
  cbn [serve fmap list_fmap fst snd]. rewrite chat_final. f_equal. exact IH.
Qed.

(** ** Start-up with a key *)

(** X1: the module runs to its end exactly when [GEMINI_API_KEY] is set
    to a non-empty string.  It then configures the SDK once with that key
    and leaves the model name, the three personas and the routes of the
    static folder, [GET /] and [POST /chat] in place.  Imported by a
    server, it prints nothing; run as a script, it goes on to print its
    three lines and to call [app.run] on host 0.0.0.0, port 8000, in debug
    mode. *)
Theorem startup_succeeds_iff (name : string) (environ : gmap string string) :
  outcome (module_body name environ blank_server) = Ok tt <->
  exists key,
    environ !! "GEMINI_API_KEY" = Some key /\ key <> "" /\
    module_body name environ blank_server =
    Run (Ok tt)
        {| MODEL_NAME := "gemini-2.5-flash-lite";
           PROFILES := PROFILES_literal;
           routes := [("GET", "/static/<path:filename>"); ("GET", "/"); ("POST", "/chat")] |}
        (SdkConfigured key ::
         if String.eqb name "__main__"
         then [Printed Launching; Printed (ModelIs "gemini-2.5-flash-lite");
               Printed ModeOptions; AppRun "0.0.0.0" 8000 true]
         else []).
Proof.
  split.
  - intros H. unfold module_body, module_init in H |- *.
    destruct (environ !! "GEMINI_API_KEY") as [[|a key]|]; try discriminate H.
    exists (String a key). split; [reflexivity|]. split; [discriminate|].
    destruct (String.eqb name "__main__"); reflexivity.
  - intros (key & _ & _ & ->). reflexivity.
Qed.

Lemma startup_succeeds_iff_witness :
  module_body "__main__" (<["GEMINI_API_KEY" := "secret"]> ∅) blank_server =
    Run (Ok tt) started
        [SdkConfigured "secret"; Printed Launching; Printed (ModelIs "gemini-2.5-flash-lite");
         Printed ModeOptions; AppRun "0.0.0.0" 8000 true] /\
  module_body "app" (<["GEMINI_API_KEY" := "secret"]> ∅) blank_server =
    Run (Ok tt) started [SdkConfigured "secret"].
Proof.
  split.
  - destruct (proj1 (startup_succeeds_iff "__main__" (<["GEMINI_API_KEY" := "secret"]> ∅)))
      as (key & Hkey & _ & Hrun); [reflexivity|].
    injection Hkey as <-. exact Hrun.
  - destruct (proj1 (startup_succeeds_iff "app" (<["GEMINI_API_KEY" := "secret"]> ∅)))
      as (key & Hkey & _ & Hrun); [reflexivity|].
    injection Hkey as <-. exact Hrun.
Defined.

(** Without a key the runner is not reached either. *)
Example script_without_key :
  module_body "__main__" ∅ blank_server = module_init ∅ blank_server.
Proof. reflexivity. Qed.

(** ** A mode that is not a string *)

Lemma requested_mode_unusable (fields : list (string * value)) (g : server) :
  usable_mode fields = false ->
  requested_mode (VDict fields) g = Run (Raise AttributeError) g [].
Proof.
  intros H. rewrite requested_mode_run.
  destruct (or_else (default VNone (dict_get "mode" fields)) (VStr "default"))
    as [| | |s| |] eqn:E; try reflexivity.
  assert (usable_mode fields = true) as Hok.
  { apply (usable_mode_iff fields g). exists (lower s).
    rewrite requested_mode_run, E. reflexivity. }
  rewrite Hok in H. discriminate H.
Qed.

(** X17: a [mode] that is truthy but not a string (a number, [true], a
    non-empty list or object) always ends the request in an escaped
    [AttributeError] with no call made, whatever the message and the
    history are, a blank message included. *)
Theorem chat_mode_not_a_string (client : call -> upstream) (body : value)
    (fields : list (string * value)) (g : server) :
  or_else body (VDict []) = VDict fields ->
  usable_mode fields = false ->
  chat client body g = Run (Raise AttributeError) g [].
Proof.
  intros Hbody Hmode.
  rewrite (chat_data _ _ _ _ Hbody), chat_cases.
  rewrite (requested_mode_unusable fields g Hmode). cbn [outcome].
  now destruct (or_else (default VNone (dict_get "message" fields)) (VStr "")).
Qed.

Lemma chat_mode_not_a_string_witness :
  chat (canned (Generated "Ahoy"))
       (VDict [("message", VStr "Hello"); ("mode", VList [VStr "teacher"])]) started =
  Run (Raise AttributeError) started [].
Proof.
  exact (chat_mode_not_a_string (canned (Generated "Ahoy"))
           (VDict [("message", VStr "Hello"); ("mode", VList [VStr "teacher"])])
           [("message", VStr "Hello"); ("mode", VList [VStr "teacher"])] started
           eq_refl eq_refl).
Defined.

(** ** The text of a turn *)

(** X18: the [text] of a forwarded turn is passed on as it is, whatever its
    type: a null text reaches the SDK as [None], not as the empty string
    that stands in for a missing one. *)
Theorem turn_text_forwarded_unchanged (client : call -> upstream) (body : value)
    (fields : list (string * value)) (items : list value) (c : call)
    (i : nat) (t : list (string * value)) (v : value) :
  or_else body (VDict []) = VDict fields ->
  dict_get "history" fields = Some (VList items) ->
  SdkCalled c ∈ log (chat client body started) ->
  last_n 8 items !! i = Some (VDict t) ->
  dict_get "text" t = Some v ->
  exists entry, call_contents c !! i = Some entry /\ parts entry = [v].
Proof.
  intros Hbody Hhist Hcall Hi Htext.
  destruct (forwarded_turn _ _ _ _ _ _ _ Hbody Hhist Hcall Hi) as (t' & Ht & Hc).
  injection Ht as <-.
  exists (content_of_turn t). split; [exact Hc|].
  unfold content_of_turn. cbn [parts]. now rewrite Htext.
Qed.

Lemma turn_text_forwarded_unchanged_witness :
  exists entry,
    call_contents (Call MODEL_NAME_literal (system default_profile)
                     (generation_config default_profile)
                     [Content "user" [VNone]; Content "user" [VStr "Hello"]]) !! 0
      = Some entry /\
    parts entry = [VNone].
Proof.
  apply (turn_text_forwarded_unchanged (canned (Generated "Ahoy"))
           (VDict [("message", VStr "Hello");
                   ("history", VList [VDict [("role", VStr "user"); ("text", VNone)]])])
           [("message", VStr "Hello");
            ("history", VList [VDict [("role", VStr "user"); ("text", VNone)]])]
           [VDict [("role", VStr "user"); ("text", VNone)]] _ 0
           [("role", VStr "user"); ("text", VNone)] VNone);
    try reflexivity.
  apply list_elem_of_singleton. reflexivity.
Defined.
